(** * Linter-rule resolution and custom-instruction assembly

    A shallow embedding of

    - [src/core/prompts/gen-eslint-rules.ts] (the in-process resolver,
      module [InProcess] below),
    - the sub-process resolver built on [runCommand] and
      [npx eslint --print-config] (module [SubProcess]),
    - [src/core/prompts/sections/custom-instructions.ts] (module
      [Instructions]),

    together with the properties the specification states about them.

    Asynchronous functions are sequential here: every [await] is a bind
    of the monad [M], a rejected promise is [Throw], a promise that never
    settles is [Pending].  Everything the code asks of its surroundings
    (the file system, the JSON parser, the [path] module, the linter
    engine, the child process, the host editor) is a field of the record
    [World]; each such call leaves an [Event] in the trace. *)

From Stdlib Require Import List String Ascii Bool ZArith Lia.
From Stdlib Require Import DecimalString.
Import ListNotations.

Local Open Scope string_scope.
Local Open Scope list_scope.

Set Warnings "-register-all".

(* ===================================================================== *)
(** * JavaScript values and strings *)
(* ===================================================================== *)

Module JS.

(** A JavaScript string is taken as its sequence of UTF-16 code units, of
    which the model keeps those below 256: one [ascii] per code unit. *)

(** White space of [String.prototype.trim] among the code units below 256:
    TAB, LF, VT, FF, CR, SP and NBSP. *)
Definition is_ws (c : ascii) : bool :=
  match nat_of_ascii c with
  | 9 | 10 | 11 | 12 | 13 | 32 | 160 => true
  | _ => false
  end.

Fixpoint trimStart (s : string) : string :=
  match s with
  | EmptyString => EmptyString
  | String c s' => if is_ws c then trimStart s' else s
  end.

Fixpoint trimEnd (s : string) : string :=
  match s with
  | EmptyString => EmptyString
  | String c s' =>
      match trimEnd s' with
      | EmptyString => if is_ws c then EmptyString else String c EmptyString
      | t => String c t
      end
  end.

Definition trim (s : string) : string := trimEnd (trimStart s).

(** Truthiness of a string: every string but the empty one. *)
Definition str_truthy (s : string) : bool :=
  match s with EmptyString => false | _ => true end.

(** [Array.prototype.join] on an array of strings. *)
Definition join (sep : string) (l : list string) : string := String.concat sep l.

(** [Array.prototype.includes] on an array of strings. *)
Definition includes (l : list string) (s : string) : bool :=
  existsb (String.eqb s) l.

Definition LF : string := String (ascii_of_nat 10) EmptyString.

(** The values [JSON.parse] and the linter engine hand back.  Numbers are
    the integral ones; an object is its list of own properties, in which
    a key occurs once. *)
Inductive value : Type :=
| VUndefined
| VNull
| VBool (b : bool)
| VNum (n : Z)
| VStr (s : string)
| VArr (l : list value)
| VObj (props : list (string * value)).

Definition truthy (v : value) : bool :=
  match v with
  | VUndefined | VNull => false
  | VBool b => b
  | VNum n => negb (Z.eqb n 0)
  | VStr s => str_truthy s
  | VArr _ | VObj _ => true
  end.

Fixpoint lookup (k : string) (props : list (string * value)) : value :=
  match props with
  | [] => VUndefined
  | (k', v) :: rest => if String.eqb k k' then v else lookup k rest
  end.

(** [v.k] for a [v] that is neither [null] nor [undefined]; none of the
    keys read by the code ([rules], [eslintConfig]) is a property of a
    primitive's or an array's prototype. *)
Definition prop (v : value) (k : string) : value :=
  match v with
  | VObj props => lookup k props
  | _ => VUndefined
  end.

(** [v?.k] *)
Definition opt_prop (v : value) (k : string) : value :=
  match v with
  | VUndefined | VNull => VUndefined
  | _ => prop v k
  end.

(** [a || b] *)
Definition or_else (a b : value) : value := if truthy a then a else b.

(** An error object: its [code] property (set on errno exceptions such as
    ENOENT, absent on a [SyntaxError], a [TypeError] or a rejection with
    a plain string) and its text. *)
Record error : Type := mkError { err_code : option string; err_message : string }.

Definition errno (code : string) : error := mkError (Some code) code.
Definition plain_error (msg : string) : error := mkError None msg.

End JS.

(* ===================================================================== *)
(** * The surroundings of the code, and the monad of its effects *)
(* ===================================================================== *)

Module Sys.

Import JS.

(** An entry of [fs.readdir(dir, { withFileTypes: true, recursive: true })]:
    [d_name] is the entry's own name, [d_parentPath] the directory it was
    found in. *)
Record Dirent : Type := mkDirent
  { d_name : string; d_parentPath : string; d_isFile : bool }.

(** What a spawned child process emits, in the order it emits it. *)
Inductive ChildEvent : Type :=
| StdoutData (chunk : string)
| StderrData (chunk : string)
| Close (code : option Z)        (* [None]: ended by a signal, code [null] *)
| SpawnError (e : error).

(** The surroundings.  The [path] module, [fs], [JSON], the [eslint]
    package, [child_process] and [vscode] are libraries; utils/fs
    ([fileExistsAtPath], [isDirectory]), utils/path ([getWorkspacePath])
    and shared/language ([LANGUAGES]) belong to the repository but not
    to the sources at hand: all of them are parameters.  A call to the
    file system or to the engine is taken to settle, with a value or with
    an error; only the child process may leave its caller waiting. *)
Record World : Type := mkWorld
  { (* [path.join(a, b)], [path.resolve(a, b)], [path.basename(p)] and
       [path.posix.join(p)] *)
    path_join : string -> string -> string;
    path_resolve : string -> string -> string;
    path_basename : string -> string;
    path_posix_join1 : string -> string;
    (* the file system: [fs_exists] answers [fs.existsSync] and
       [fileExistsAtPath], [fs_isDirectory] answers [isDirectory],
       [fs_readFile] answers [fs.readFileSync(p, "utf8")] and
       [fs.readFile(p, "utf8")], [fs_readdir] answers the recursive
       [fs.readdir] with file types *)
    fs_exists : string -> bool;
    fs_isDirectory : string -> bool;
    fs_readFile : string -> error + string;
    fs_readdir : string -> error + list Dirent;
    (* [JSON.parse]; [None] is a [SyntaxError] *)
    json_parse : string -> option value;
    (* [new ESLint({ cwd }).calculateConfigForFile(file)] *)
    eslint_calculateConfigForFile : string -> string -> error + value;
    (* what the child of [spawn(command, args, { cwd })] emits *)
    child_spawn : string -> list string -> string -> list ChildEvent;
    (* [vscode.workspace.workspaceFolders], as the folders' [uri.fsPath] *)
    vscode_workspaceFolders : option (list string);
    (* [getWorkspacePath(defaultCwdPath)] *)
    utils_getWorkspacePath : string -> string;
    (* [LANGUAGES[code]]; [None] is [undefined] *)
    LANGUAGES : string -> option string }.

Inductive Event : Type :=
| EvExists (p : string)
| EvIsDirectory (p : string)
| EvReadFile (p : string)
| EvReaddir (p : string)
| EvCalculateConfig (cwd file : string)
| EvSpawn (command : string) (args : list string) (cwd : string)
| EvConsole (msg : string).

(** Whether an event touches the file system, and whether it reads the
    content of a file. *)
Definition is_fs_event (e : Event) : bool :=
  match e with
  | EvExists _ | EvIsDirectory _ | EvReadFile _ | EvReaddir _ => true
  | _ => false
  end.

Definition is_read_event (e : Event) : bool :=
  match e with EvReadFile _ => true | _ => false end.

Definition is_probe_event (e : Event) : bool :=
  match e with EvCalculateConfig _ _ | EvSpawn _ _ _ => true | _ => false end.

(** How an awaited computation ends. *)
Inductive Outcome (A : Type) : Type :=
| Ret (a : A)
| Throw (e : error)
| Pending.

Arguments Ret {A} a.
Arguments Throw {A} e.
Arguments Pending {A}.

Definition M (A : Type) : Type := (list Event * Outcome A)%type.

Definition ret {A} (a : A) : M A := ([], Ret a).
Definition throw {A} (e : error) : M A := ([], Throw e).
Definition emit (ev : Event) : M unit := ([ev], Ret tt).

Definition bind {A B} (m : M A) (k : A -> M B) : M B :=
  match m with
  | (t, Ret a) => let (t', o) := k a in (t ++ t', o)
  | (t, Throw e) => (t, Throw e)
  | (t, Pending) => (t, Pending)
  end.

(** [try { m } catch (e) { h e }] *)
Definition try_catch {A} (m : M A) (h : error -> M A) : M A :=
  match m with
  | (t, Throw e) => let (t', o) := h e in (t ++ t', o)
  | other => other
  end.

Definition trace {A} (m : M A) : list Event := fst m.
Definition outcome {A} (m : M A) : Outcome A := snd m.

Definition of_sum {A} (r : error + A) : Outcome A :=
  match r with inl e => Throw e | inr a => Ret a end.

(** [Promise.all] over computations that were all started, in order; on
    a rejection the first one in the order of the array is reported. *)
Fixpoint promise_all {A} (l : list (M A)) : M (list A) :=
  match l with
  | [] => ret []
  | (t, o) :: rest =>
      let (t', os) := promise_all rest in
      (t ++ t',
       match o, os with
       | Throw e, _ => Throw e
       | _, Throw e => Throw e
       | Pending, _ => Pending
       | _, Pending => Pending
       | Ret a, Ret l' => Ret (a :: l')
       end)
  end.

End Sys.

Declare Scope js_scope.
Delimit Scope js_scope with js.
Notation "x <- m ;; k" := (Sys.bind m (fun x => k))
  (at level 100, m at next level, right associativity) : js_scope.
Notation "m ;;; k" := (Sys.bind m (fun _ => k))
  (at level 100, right associativity) : js_scope.

Local Open Scope js_scope.

(* ===================================================================== *)
(** * gen-eslint-rules.ts: the in-process resolver *)
(* ===================================================================== *)

Module InProcess.

Import JS Sys.

Section WithWorld.

Variable w : World.

Definition existsSync (p : string) : M bool :=
  (emit (EvExists p) ;;; ret (fs_exists w p)).

Definition readFileSync (p : string) : M string :=
  ([EvReadFile p], of_sum (fs_readFile w p)).

Definition JSON_parse (s : string) : M value :=
  match json_parse w s with
  | Some v => ret v
  | None => throw (plain_error "SyntaxError")
  end.

(** [v.k], a [TypeError] when [v] is [null] or [undefined]. *)
Definition member (v : value) (k : string) : M value :=
  match v with
  | VUndefined | VNull => throw (plain_error "TypeError")
  | _ => ret (prop v k)
  end.

Definition console_error (msg : string) : M unit := emit (EvConsole msg).

Definition config_filenames : list string :=
  [".eslintrc"; ".eslintrc.js"; ".eslintrc.json"; ".eslintrc.yaml";
   ".eslintrc.yml"; "package.json"].

Definition getESLintConfigPaths (workspacePath : string) : list string :=
  map (fun filename => path_join w workspacePath filename) config_filenames.

Definition getESLintConfigFromPackageJson (packageJsonPath : string) : M value :=
  try_catch
    (content <- readFileSync packageJsonPath ;;
     packageJson <- JSON_parse content ;;
     eslintConfig <- member packageJson "eslintConfig" ;;
     ret (or_else eslintConfig VNull))
    (fun _ => ret VNull).

(** The branch for package.json returns the promise of
    [getESLintConfigFromPackageJson] without awaiting it, so that call is
    made from inside the [try] and settles outside of it: the body of the
    [try] yields either the value to return or the path to hand on. *)
Definition parseESLintConfig (configPath : string) : M value :=
  r <- try_catch
         (ex <- existsSync configPath ;;
          if negb ex then ret (inl VNull)
          else if String.eqb (path_basename w configPath) "package.json"
          then ret (inr configPath)
          else
            (content <- readFileSync configPath ;;
             v <- JSON_parse content ;;
             ret (inl v)))
         (fun _ => ret (inl VNull)) ;;
  match r with
  | inl v => ret v
  | inr p => getESLintConfigFromPackageJson p
  end.

Definition getFullESLintConfig (workspacePath : string) : M value :=
  try_catch
    ([EvCalculateConfig workspacePath "dummy.ts"],
     of_sum (eslint_calculateConfigForFile w workspacePath "dummy.ts"))
    (fun _ =>
       (console_error "Error: Unable to retrieve ESLint configuration:" ;;;
        ret VNull)).

(** The [for] loop over the candidate paths, with its [return] from
    inside the loop and the [return null] that follows it. *)
Fixpoint scanConfigPaths (configPaths : list string) : M value :=
  match configPaths with
  | [] => ret VNull
  | configPath :: rest =>
      (config <- parseESLintConfig configPath ;;
       if truthy (opt_prop config "rules")
       then ret (prop config "rules")
       else scanConfigPaths rest)
  end.

(** [vscode.workspace.workspaceFolders?.map(f => f.uri.fsPath).at(0)] *)
Definition workspacePath_of (folders : option (list string)) : option string :=
  match folders with
  | Some (p :: _) => Some p
  | _ => None
  end.

Definition getWorkspaceESLintRules : M value :=
  match workspacePath_of (vscode_workspaceFolders w) with
  | Some workspacePath =>
      if str_truthy workspacePath then
        (fullConfig <- getFullESLintConfig workspacePath ;;
         if truthy (opt_prop fullConfig "rules")
         then ret (prop fullConfig "rules")
         else scanConfigPaths (getESLintConfigPaths workspacePath))
      else ret VNull
  | None => ret VNull
  end.

Definition getFormattedESLintRules : M value := getWorkspaceESLintRules.

End WithWorld.

End InProcess.

(* ===================================================================== *)
(** * The sub-process resolver *)
(* ===================================================================== *)

Module SubProcess.

Import JS Sys.

(** [Number(code)] for the [code] of the close event. *)
Definition Number_of_code (code : option Z) : Z :=
  match code with Some n => n | None => 0%Z end.

(** [`${code}`] *)
Definition show_code (code : option Z) : string :=
  match code with
  | Some n => NilZero.string_of_int (Z.to_int n)
  | None => "null"
  end.

Definition exit_message (code : option Z) : string :=
  "child process exited with code " ++ show_code code.

(** The listeners of [runCommand] fed with what the child emits.  The
    promise settles at the first close or error event: what the child
    emits afterwards no longer reaches the caller.  A child that emits
    neither leaves the promise pending. *)
Fixpoint feed (evs : list ChildEvent) (output : string) : M string :=
  match evs with
  | [] => ([], Pending)
  | StdoutData data :: rest => feed rest (output ++ data)
  | StderrData data :: rest => (emit (EvConsole data) ;;; feed rest output)
  | Close code :: _ =>
      (emit (EvConsole (exit_message code)) ;;;
       if (Number_of_code code =? 0)%Z || (Number_of_code code =? 1)%Z
       then ret output
       else throw (plain_error (exit_message code)))
  | SpawnError err :: _ =>
      (emit (EvConsole ("Error: " ++ err_message err)) ;;; throw err)
  end.

Section WithWorld.

Variable w : World.

Definition runCommand (command : string) (options : list string)
    (projectFolder : string) : M string :=
  (emit (EvSpawn command options projectFolder) ;;;
   feed (child_spawn w command options projectFolder) "").

Definition config_filenames : list string :=
  [".eslintrc"; ".eslintrc.js"; ".eslintrc.json"; ".eslintrc.yaml";
   ".eslintrc.yml"].

Definition getESLintConfigPaths (workspacePath : string) : list string :=
  map (fun filename => path_join w workspacePath filename) config_filenames.

Definition getFullESLintConfig (workspacePath filePath : string) : M value :=
  try_catch
    (result <- runCommand "npx" ["eslint"; "--print-config"; filePath]
                 workspacePath ;;
     config <- InProcess.JSON_parse w result ;;
     ret config)
    (fun _ =>
       (InProcess.console_error "Failed to get ESLint config:" ;;; ret VNull)).

(** The loop of [getConfigPath]; [None] is its [null]. *)
Fixpoint firstExisting (configPaths : list string) : M (option string) :=
  match configPaths with
  | [] => ret None
  | configPath :: rest =>
      (ex <- InProcess.existsSync w configPath ;;
       if ex then ret (Some configPath) else firstExisting rest)
  end.

Definition getConfigPath (workspacePath : string) : M (option string) :=
  firstExisting (getESLintConfigPaths workspacePath).

Definition getWorkspaceESLintRules (defaultCwdPath : string) : M value :=
  let workspacePath := utils_getWorkspacePath w defaultCwdPath in
  (configPath <- getConfigPath workspacePath ;;
   match configPath with
   | None => ret VNull
   | Some configPath =>
       if negb (str_truthy configPath) then ret VNull
       else
         (fullConfig <- getFullESLintConfig workspacePath configPath ;;
          if truthy fullConfig then ret fullConfig else ret VNull)
   end).

End WithWorld.

End SubProcess.

(* ===================================================================== *)
(** * sections/custom-instructions.ts *)
(* ===================================================================== *)

Module Instructions.

Import JS Sys.

Local Open Scope string_scope.

(** The double quote, as a one-character string. *)
Definition DQ : string := String (ascii_of_nat 34) EmptyString.

Record Options : Type := mkOptions
  { language : option string; rooIgnoreInstructions : option string }.

Definition no_options : Options := mkOptions None None.

(** Truthiness of an optional string property. *)
Definition opt_truthy (o : option string) : bool :=
  match o with Some s => str_truthy s | None => false end.

Definition file_header (file cwdShown : string) : string :=
  "# " ++ file ++ LF ++ LF ++
  "The following is provided by a root-level " ++ file ++
  " file where the user has specified instructions for this working directory ("
  ++ cwdShown ++ ")" ++ LF ++ LF.

Definition directory_header (file cwdShown : string) : string :=
  "# " ++ file ++ "/" ++ LF ++ LF ++
  "The following is provided by a root-level " ++ file ++
  "/ directory where the user has specified instructions for this working directory ("
  ++ cwdShown ++ ")" ++ LF ++ LF.

Definition banner : string :=
  LF ++ "====" ++ LF ++ LF ++ "USER'S CUSTOM INSTRUCTIONS" ++ LF ++ LF ++
  "The following additional instructions are provided by the user, and should be followed to the best of your ability without interfering with the TOOL USE guidelines."
  ++ LF ++ LF.

Definition language_section (languageName code : string) : string :=
  "Language Preference:" ++ LF ++
  "You should always speak and think in the " ++ DQ ++ languageName ++ DQ ++
  " (" ++ code ++
  ") language unless the user gives you instructions below to do otherwise.".

(** [array.push(a)] *)
Definition push {A} (l : list A) (a : A) : list A := (l ++ [a])%list.

Section WithWorld.

Variable w : World.

Definition fileExistsAtPath (p : string) : M bool :=
  (emit (EvExists p) ;;; ret (fs_exists w p)).

Definition isDirectory (p : string) : M bool :=
  (emit (EvIsDirectory p) ;;; ret (fs_isDirectory w p)).

Definition readdir (p : string) : M (list Dirent) :=
  ([EvReaddir p], of_sum (fs_readdir w p)).

Definition readFile (p : string) : M string :=
  ([EvReadFile p], of_sum (fs_readFile w p)).

(** One element of the array given to [Promise.all]. *)
Definition readRuleFile (filePath file : string) : M string :=
  let ruleFilePathRelative := path_resolve w filePath file in
  (content <- readFile ruleFilePathRelative ;;
   ret (ruleFilePathRelative ++ ":" ++ LF ++ trim content)).

Definition readRuleDirectory (file cwd filePath : string) : M string :=
  (files <- readdir filePath ;;
   let ruleFiles :=
     map (fun f => path_resolve w filePath (d_name f)) (filter d_isFile files) in
   contents <- promise_all (map (readRuleFile filePath) ruleFiles) ;;
   let ruleFileContent := join (LF ++ LF) contents in
   ret (directory_header file (path_posix_join1 w cwd) ++ ruleFileContent)).

(** Whether the outer [catch] of [safeReadFile] swallows the error. *)
Definition swallowed (err : error) : bool :=
  match err_code err with
  | Some errorCode =>
      negb (negb (str_truthy errorCode) || negb (includes ["ENOENT"; "EISDIR"] errorCode))
  | None => false
  end.

Definition safeReadFile (file cwd : string) : M string :=
  let filePath := path_join w cwd file in
  try_catch
    (ex <- fileExistsAtPath filePath ;;
     if ex then
       (isDir <- isDirectory filePath ;;
        if isDir then
          try_catch
            (readRuleDirectory file cwd filePath)
            (fun _ =>
               (emit (EvConsole ("Failed to read .clinerules directory at " ++ filePath)) ;;;
                ret ""))
        else
          (content <- readFile filePath ;;
           let ruleFileContent := trim content in
           if str_truthy ruleFileContent
           then ret (file_header file (path_posix_join1 w cwd) ++ ruleFileContent)
           else ret ""))
     else ret "")
    (fun err => if swallowed err then ret "" else throw err).

Definition ruleFiles : list string := [".clinerules"; ".cursorrules"; ".windsurfrules"].

(** The loop of [loadRuleFiles], from the value [combinedRules] has when
    the loop reaches [files]. *)
Fixpoint loadRuleFilesFrom (files : list string) (cwd combinedRules : string) : M string :=
  match files with
  | [] => ret combinedRules
  | file :: rest =>
      (content <- safeReadFile file cwd ;;
       if str_truthy content
       then loadRuleFilesFrom rest cwd (combinedRules ++ LF ++ content ++ LF)
       else loadRuleFilesFrom rest cwd combinedRules)
  end.

Definition loadRuleFiles (cwd : string) : M string :=
  loadRuleFilesFrom ruleFiles cwd "".

(** [typeof x === "string" && x.trim()], and the trimmed text. *)
Definition trimmed_text (x : value) : option string :=
  match x with
  | VStr s => if str_truthy (trim s) then Some (trim s) else None
  | _ => None
  end.

Definition modeRuleFile (mode : string) : string := ".clinerules-" ++ mode.

Definition addCustomInstructions
    (modeCustomInstructions globalCustomInstructions : value)
    (cwd mode : string) (options : Options) : M string :=
  let sections : list string := [] in
  (modeRuleContent <-
     (if str_truthy mode then safeReadFile (modeRuleFile mode) cwd else ret "") ;;
   let sections :=
     match language options with
     | Some lang =>
         if str_truthy lang then
           let languageName :=
             match LANGUAGES w lang with
             | Some name => if str_truthy name then name else lang
             | None => lang
             end in
           push sections (language_section languageName lang)
         else sections
     | None => sections
     end in
   let sections :=
     match trimmed_text globalCustomInstructions with
     | Some t => push sections ("Global Instructions:" ++ LF ++ t)
     | None => sections
     end in
   let sections :=
     match trimmed_text modeCustomInstructions with
     | Some t => push sections ("Mode-specific Instructions:" ++ LF ++ t)
     | None => sections
     end in
   let rules : list string := [] in
   let rules :=
     if str_truthy modeRuleContent && str_truthy (trim modeRuleContent)
     then push rules ("# Rules from " ++ modeRuleFile mode ++ ":" ++ LF ++ modeRuleContent)
     else rules in
   let rules :=
     match rooIgnoreInstructions options with
     | Some ign => if str_truthy ign then push rules ign else rules
     | None => rules
     end in
   genericRuleContent <- loadRuleFiles cwd ;;
   let rules :=
     if str_truthy genericRuleContent && str_truthy (trim genericRuleContent)
     then push rules (trim genericRuleContent)
     else rules in
   let sections :=
     if (0 <? List.length rules)%nat
     then push sections ("Rules:" ++ LF ++ LF ++ join (LF ++ LF) rules)
     else sections in
   let joinedSections := join (LF ++ LF) sections in
   ret (if str_truthy joinedSections then banner ++ joinedSections else "")).

End WithWorld.

End Instructions.

(* ===================================================================== *)
(** * Sample worlds *)
(* ===================================================================== *)

(** Worlds to run the code in: a POSIX flavour of the [path] module, good
    for absolute directories without a trailing separator and for plain
    names, a file system given by a table, [JSON.parse] given by a table
    of the texts it is asked to parse. *)
Module Sample.

Import JS Sys.

Definition join (a b : string) : string := a ++ "/" ++ b.

Definition is_absolute (p : string) : bool :=
  match p with
  | String c _ => Ascii.eqb c "/"%char
  | EmptyString => false
  end.

Definition resolve (a b : string) : string :=
  if is_absolute b then b else join a b.

(** The part of [p] after its last separator; [acc] is the part read
    since the last separator seen. *)
Fixpoint basename_from (p acc : string) : string :=
  match p with
  | EmptyString => acc
  | String c rest =>
      if Ascii.eqb c "/"%char then basename_from rest ""
      else basename_from rest (acc ++ String c "")
  end.

Definition basename (p : string) : string := basename_from p "".

Inductive Node : Type :=
| RegularFile (content : string)
| Directory (entries : list Dirent)
| Unreadable (code : string).

Definition FileTable : Type := list (string * Node).

Fixpoint find {A} (p : string) (t : list (string * A)) : option A :=
  match t with
  | [] => None
  | (q, n) :: rest => if String.eqb p q then Some n else find p rest
  end.

Definition exists_in (t : FileTable) (p : string) : bool :=
  match find p t with Some _ => true | None => false end.

Definition isDirectory_in (t : FileTable) (p : string) : bool :=
  match find p t with Some (Directory _) => true | _ => false end.

Definition readFile_in (t : FileTable) (p : string) : error + string :=
  match find p t with
  | Some (RegularFile c) => inr c
  | Some (Directory _) => inl (errno "EISDIR")
  | Some (Unreadable code) => inl (errno code)
  | None => inl (errno "ENOENT")
  end.

Definition readdir_in (t : FileTable) (p : string) : error + list Dirent :=
  match find p t with
  | Some (Directory entries) => inr entries
  | Some (RegularFile _) => inl (errno "ENOTDIR")
  | Some (Unreadable code) => inl (errno code)
  | None => inl (errno "ENOENT")
  end.

Definition world (files : FileTable) (json : list (string * value))
    (engine : error + value) (child : list ChildEvent)
    (folders : option (list string)) (languages : list (string * string)) : World :=
  {| path_join := join;
     path_resolve := resolve;
     path_basename := basename;
     path_posix_join1 := fun p => p;
     fs_exists := exists_in files;
     fs_isDirectory := isDirectory_in files;
     fs_readFile := readFile_in files;
     fs_readdir := readdir_in files;
     json_parse := fun s => find s json;
     eslint_calculateConfigForFile := fun _ _ => engine;
     child_spawn := fun _ _ _ => child;
     vscode_workspaceFolders := folders;
     utils_getWorkspacePath := fun d => if str_truthy d then d else "/ws";
     LANGUAGES := fun code => find code languages |}.

End Sample.

(* ===================================================================== *)
(** * The resolution of section 4.1, in the specification's words *)
(* ===================================================================== *)

Module Spec.

Import JS Sys.

(** What a finished run of the child process printed and how it ended,
    read off the events it emitted. *)
Definition is_data (e : ChildEvent) : bool :=
  match e with StdoutData _ | StderrData _ => true | _ => false end.

Fixpoint stdout_of (evs : list ChildEvent) : string :=
  match evs with
  | [] => ""
  | StdoutData chunk :: rest => chunk ++ stdout_of rest
  | _ :: rest => stdout_of rest
  end.

Definition settles (evs : list ChildEvent) : bool :=
  existsb (fun e => negb (is_data e)) evs.

(** The event that settles the promise of [runCommand]: an exit with
    code 0 or 1, as against any other exit code or a failure to spawn,
    and the value the promise is rejected with. *)
Definition exit_ok (fin : ChildEvent) : Prop :=
  fin = Close (Some 0%Z) \/ fin = Close (Some 1%Z).

Definition exit_failure (fin : ChildEvent) : Prop :=
  (exists n, fin = Close (Some n) /\ n <> 0%Z /\ n <> 1%Z) \/
  (exists e, fin = SpawnError e).

Definition rejection (fin : ChildEvent) : error :=
  match fin with
  | Close code => plain_error (SubProcess.exit_message code)
  | SpawnError e => e
  | _ => plain_error ""
  end.

(** A rule mapping with at least one rule. *)
Definition nonempty_mapping (r : value) : Prop :=
  exists kv kvs, r = VObj (kv :: kvs).

Section WithWorld.

Variable w : World.

(** Step 1, in-process: the rules of the configuration the linter's
    engine computes, [undefined] when the engine fails. *)
Definition probe_rules (workspacePath : string) : value :=
  match eslint_calculateConfigForFile w workspacePath "dummy.ts" with
  | inr config => opt_prop config "rules"
  | inl _ => VUndefined
  end.

(** Step 2: the configuration a candidate file holds.  The file exists
    and its text parses; for package.json the configuration is the
    embedded [eslintConfig] section. *)
Inductive file_config (p : string) : value -> Prop :=
| FC_plain content config :
    fs_exists w p = true ->
    path_basename w p <> "package.json" ->
    fs_readFile w p = inr content ->
    json_parse w content = Some config ->
    file_config p config
| FC_package content pkg :
    fs_exists w p = true ->
    path_basename w p = "package.json" ->
    fs_readFile w p = inr content ->
    json_parse w content = Some pkg ->
    truthy (opt_prop pkg "eslintConfig") = true ->
    file_config p (opt_prop pkg "eslintConfig").

(** The candidate [p] exists, parses and holds the rules [r]. *)
Definition file_yields (p : string) (r : value) : Prop :=
  exists config,
    file_config p config /\ opt_prop config "rules" = r /\ truthy r = true.

(** The candidate is absent, or unparseable, or holds no rules. *)
Definition file_yields_nothing (p : string) : Prop :=
  forall r, ~ file_yields p r.

(** The workspace path the in-process resolver works on, if any. *)
Definition workspace : option string :=
  match InProcess.workspacePath_of (vscode_workspaceFolders w) with
  | Some p => if str_truthy p then Some p else None
  | None => None
  end.

(** Every source of the in-process resolver is exhausted: there is no
    workspace, or neither the probe nor any candidate file yields rules. *)
Definition exhausted : Prop :=
  match workspace with
  | None => True
  | Some ws =>
      truthy (probe_rules ws) = false /\
      Forall file_yields_nothing (InProcess.getESLintConfigPaths w ws)
  end.

(** Step 1, sub-process: how the run of
    [npx eslint --print-config filePath] in the workspace ends. *)
Definition print_config (workspacePath filePath : string) : list ChildEvent :=
  child_spawn w "npx" ["eslint"; "--print-config"; filePath] workspacePath.

(** The probe of the sub-process resolver fails, whatever file it is run
    on: the child exits with a code other than 0 and 1 or cannot be
    spawned, or what it printed does not parse. *)
Definition print_config_fails (workspacePath : string) : Prop :=
  forall filePath,
    exists pre fin post,
      print_config workspacePath filePath = (pre ++ fin :: post)%list /\
      forallb is_data pre = true /\
      (exit_failure fin \/
       (exit_ok fin /\ json_parse w (stdout_of pre) = None)).

(** No conventional configuration file exists in the workspace. *)
Definition no_config_file (workspacePath : string) : Prop :=
  Forall (fun p => fs_exists w p = false)
         (SubProcess.getESLintConfigPaths w workspacePath).

(** The display name of a language code: the entry of the table, the raw
    code when the table has none. *)
Definition display_name (code : string) : string :=
  match LANGUAGES w code with
  | Some name => if str_truthy name then name else code
  | None => code
  end.

(** The section for the language preference, present when a language
    option is supplied. *)
Definition language_part (lang : option string) : list string :=
  match lang with
  | Some code =>
      if str_truthy code
      then [Instructions.language_section (display_name code) code]
      else []
  | None => []
  end.

(** The block a file of a rule directory contributes: its resolved path,
    then its trimmed content. *)
Definition rule_file_block (dir : string) (entry : Dirent) : string :=
  let resolved := path_resolve w dir (path_resolve w dir (d_name entry)) in
  resolved ++ ":" ++ LF ++
  match fs_readFile w resolved with
  | inr content => trim content
  | inl _ => ""
  end.

(** A rule file that is absent. *)
Definition absent (cwd file : string) : Prop :=
  fs_exists w (path_join w cwd file) = false.

(** A rule file that contributes nothing: absent, or a regular file with
    nothing but white space in it. *)
Definition blank (cwd file : string) : Prop :=
  absent cwd file \/
  (fs_exists w (path_join w cwd file) = true /\
   fs_isDirectory w (path_join w cwd file) = false /\
   exists content,
     fs_readFile w (path_join w cwd file) = inr content /\ trim content = "").

End WithWorld.

End Spec.

(* ===================================================================== *)
(** * Concrete inputs *)
(* ===================================================================== *)

Module Cases.

Import JS Sys.

Local Open Scope string_scope.

(** A quoted JSON string. *)
Definition q (s : string) : string := Instructions.DQ ++ s ++ Instructions.DQ.

Definition rules_semi : value := VObj [("semi", VStr "error")].

Definition computed_config : value :=
  VObj [("env", VObj [("node", VBool true)]); ("rules", rules_semi)].

(** The text of [computed_config], as the linter prints it. *)
Definition printed_config : string :=
  "{" ++ q "env" ++ ":{" ++ q "node" ++ ":true}," ++ q "rules" ++ ":{" ++
  q "semi" ++ ":" ++ q "error" ++ "}}".

(** A child that prints a configuration and then exits with code 2, in a
    workspace that has an .eslintrc. *)
Definition exit2_world : World :=
  Sample.world [("/ws/.eslintrc", Sample.RegularFile "{}")]
    [(printed_config, computed_config); ("{}", VObj [])]
    (inl (plain_error "no engine"))
    [StdoutData printed_config; StderrData "Oops"; Close (Some 2%Z)]
    None [].

(** The same child exiting with code 1. *)
Definition exit1_world : World :=
  Sample.world [("/ws/.eslintrc", Sample.RegularFile "{}")]
    [(printed_config, computed_config); ("{}", VObj [])]
    (inl (plain_error "no engine"))
    [StdoutData "{"; StderrData "1 problem"; StdoutData "}"; Close (Some 1%Z)]
    None [].

(** A workspace configured through package.json alone: none of the five
    .eslintrc files exists, and the linter prints the computed
    configuration for whatever file it is asked about. *)
Definition package_text : string :=
  "{" ++ q "name" ++ ":" ++ q "app" ++ "," ++ q "eslintConfig" ++ ":{" ++
  q "rules" ++ ":{" ++ q "semi" ++ ":" ++ q "error" ++ "}}}".

Definition package_only_world : World :=
  Sample.world [("/ws/package.json", Sample.RegularFile package_text)]
    [(printed_config, computed_config);
     (package_text,
      VObj [("name", VStr "app"); ("eslintConfig", VObj [("rules", rules_semi)])])]
    (inr computed_config)
    [StdoutData printed_config; Close (Some 0%Z)]
    (Some ["/ws"]) [].

(** A workspace whose engine computes [computed_config] while its
    .eslintrc.json says something else. *)
Definition rules_quotes : value := VObj [("quotes", VStr "warn")].

Definition quotes_text : string :=
  "{" ++ q "rules" ++ ":{" ++ q "quotes" ++ ":" ++ q "warn" ++ "}}".

Definition differing_world : World :=
  Sample.world [("/ws/.eslintrc.json", Sample.RegularFile quotes_text)]
    [(printed_config, computed_config);
     (quotes_text, VObj [("rules", rules_quotes)])]
    (inr computed_config)
    [StdoutData printed_config; Close (Some 0%Z)]
    (Some ["/ws"]) [].

(** A workspace whose engine fails and whose first candidate holds an
    empty rule mapping, while a later one holds rules. *)
Definition empty_rules_text : string := "{" ++ q "rules" ++ ":{}}".

Definition semi_text : string :=
  "{" ++ q "rules" ++ ":{" ++ q "semi" ++ ":" ++ q "error" ++ "}}".

Definition empty_first_world : World :=
  Sample.world
    [("/ws/.eslintrc", Sample.RegularFile empty_rules_text);
     ("/ws/.eslintrc.json", Sample.RegularFile semi_text)]
    [(empty_rules_text, VObj [("rules", VObj [])]);
     (semi_text, VObj [("rules", rules_semi)])]
    (inl (plain_error "No ESLint configuration found"))
    [SpawnError (errno "ENOENT")]
    (Some ["/ws"]) [].

(** A workspace whose engine fails, with no .eslintrc, an .eslintrc.js
    that is not JSON, and rules in .eslintrc.json. *)
Definition fallback_world : World :=
  Sample.world
    [("/ws/.eslintrc.js", Sample.RegularFile "module.exports = {}");
     ("/ws/.eslintrc.json", Sample.RegularFile semi_text)]
    [(semi_text, VObj [("rules", rules_semi)])]
    (inl (plain_error "No ESLint configuration found"))
    [SpawnError (errno "ENOENT")]
    (Some ["/ws"]) [].

(** A workspace configured through eslint.config.js: none of the five
    .eslintrc files exists, the linter computes a configuration. *)
Definition flat_config_world : World :=
  Sample.world [("/ws/eslint.config.js", Sample.RegularFile "export default []")]
    [(printed_config, computed_config)]
    (inr computed_config)
    [StdoutData printed_config; Close (Some 0%Z)]
    (Some ["/ws"]) [].

(** The table of display names used in the sample worlds. *)
Definition languages : list (string * string) :=
  [("en", "English"); ("fr", "Fran" ++ String (ascii_of_nat 231) "ais")].

Definition no_engine : error + value := inl (plain_error "no engine").

(** A working directory without any rule file. *)
Definition bare_world : World :=
  Sample.world [] [] no_engine [] None languages.

(** A working directory with a rule file for the mode [code] and a
    generic rule file. *)
Definition rules_world : World :=
  Sample.world
    [("/ws/.clinerules-code", Sample.RegularFile ("Prefer small functions." ++ LF));
     ("/ws/.clinerules", Sample.RegularFile ("  Write tests first." ++ LF))]
    [] no_engine [] None languages.

(** A [.clinerules] directory holding a.md and b.md. *)
Definition flat_directory_world : World :=
  Sample.world
    [("/ws/.clinerules",
      Sample.Directory [mkDirent "a.md" "/ws/.clinerules" true;
                        mkDirent "b.md" "/ws/.clinerules" true]);
     ("/ws/.clinerules/a.md", Sample.RegularFile "A");
     ("/ws/.clinerules/b.md", Sample.RegularFile "B")]
    [] no_engine [] None languages.

(** A [.clinerules] directory holding a.md and, in the directory sub,
    c.md, as the recursive [readdir] lists them. *)
Definition nested_directory_world : World :=
  Sample.world
    [("/ws/.clinerules",
      Sample.Directory [mkDirent "a.md" "/ws/.clinerules" true;
                        mkDirent "sub" "/ws/.clinerules" false;
                        mkDirent "c.md" "/ws/.clinerules/sub" true]);
     ("/ws/.clinerules/a.md", Sample.RegularFile "A");
     ("/ws/.clinerules/sub",
      Sample.Directory [mkDirent "c.md" "/ws/.clinerules/sub" true]);
     ("/ws/.clinerules/sub/c.md", Sample.RegularFile "C")]
    [] no_engine [] None languages.


(** A [.cursorrules] file that may not be read. *)
Definition locked_file_world : World :=
  Sample.world [("/ws/.cursorrules", Sample.Unreadable "EACCES")]
    [] no_engine [] None languages.

End Cases.

(* ===================================================================== *)
(** * The default exports: the text handed to the prompt *)
(* ===================================================================== *)

Module Exports.

Import JS Sys.

Local Open Scope string_scope.

Definition TAB : string := String (ascii_of_nat 9) EmptyString.

(** [Object.values(v).length] for a [v] that is neither [null] nor
    [undefined]: the own properties of an object, the elements of an
    array, the code units of a string, nothing for a number or a
    boolean. *)
Definition Object_values_length (v : value) : nat :=
  match v with
  | VObj props => List.length props
  | VArr l => List.length l
  | VStr s => String.length s
  | _ => 0
  end.

(** The template of [getESLintRules] in gen-eslint-rules.ts around
    [json], the text of the rules. *)
Definition eslint_rules_text (json : string) : string :=
  "=== ESLint Rules ===" ++ LF ++
  TAB ++ TAB ++ "The following ESLint rules must be followed when writing code:" ++ LF ++
  TAB ++ TAB ++ json ++ LF ++
  TAB ++ TAB ++ "=======" ++ LF ++
  TAB ++ "  ".

(** The template of [getLintRules] of the sub-process variant. *)
Definition lint_rules_text (json : string) : string :=
  "=== ESLint Rules ===" ++ LF ++
  TAB ++ "   Project's ESLint rules enforced during code writing:" ++ LF ++
  TAB ++ "   " ++ json ++ LF ++
  TAB ++ "   ===" ++ LF ++
  TAB ++ " ".

Section WithWorld.

Variable w : World.

(** [JSON.stringify(v, null, 2)], a parameter like the other library
    calls; it is only applied to truthy values, for which it returns a
    string. *)
Variable JSON_stringify : value -> string.

(** gen-eslint-rules.ts, the default export. *)
Definition getESLintRules : M string :=
  (rules <- InProcess.getFormattedESLintRules w ;;
   if truthy rules && (0 <? Object_values_length rules)%nat
   then
     let ruleText := eslint_rules_text (JSON_stringify rules) in
     ret ruleText
   else ret "").

(** The sub-process variant, the default export; it calls
    [getWorkspaceESLintRules] without an argument, hence with the default
    [""]. *)
Definition getLintRules : M string :=
  (eslintRules <- SubProcess.getWorkspaceESLintRules w "" ;;
   if negb (truthy eslintRules) then ret ""
   else
     let ruleText := lint_rules_text (JSON_stringify eslintRules) in
     ret ruleText).

End WithWorld.

End Exports.

(* ===================================================================== *)
(** * Further vocabulary for the properties of the code *)
(* ===================================================================== *)

Module Shape.

Import JS Sys.

Local Open Scope string_scope.

(** The events of a child without what it wrote to standard error. *)
Definition drop_stderr (evs : list ChildEvent) : list ChildEvent :=
  filter (fun e => match e with StderrData _ => false | _ => true end) evs.

(** What [loadRuleFiles] appends for the content of one rule file. *)
Definition wrap (content : string) : string :=
  if str_truthy content then LF ++ content ++ LF else "".

(** The event concerns the file or directory [p]. *)
Definition concerns (p : string) (e : Event) : Prop :=
  e = EvExists p \/ e = EvIsDirectory p \/ e = EvReadFile p \/ e = EvReaddir p.

(** A value a caller can test with [if (!v)]: [null] or truthy. *)
Definition null_or_truthy (v : value) : Prop :=
  v = VNull \/ truthy v = true.

(** A stand-in for [JSON.stringify] on the values of the sample worlds. *)
Definition stringify_sample (v : value) : string :=
  match v with
  | VObj [] => "{}"
  | VNull => "null"
  | _ => Cases.printed_config
  end.

(** A [.clinerules] directory without any file in it. *)
Definition empty_directory_world : World :=
  Sample.world
    [("/ws/.clinerules",
      Sample.Directory [mkDirent "drafts" "/ws/.clinerules" false]);
     ("/ws/.clinerules/drafts", Sample.Directory [])]
    [] Cases.no_engine [] None Cases.languages.

(** A working directory with two of the three generic rule files. *)
Definition two_files_world : World :=
  Sample.world
    [("/ws/.clinerules", Sample.RegularFile "One.");
     ("/ws/.windsurfrules", Sample.RegularFile ("Three." ++ LF))]
    [] Cases.no_engine [] None Cases.languages.

(** A working directory whose rule file for the mode [code] may not be
    read, beside a readable generic rule file. *)
Definition locked_mode_world : World :=
  Sample.world
    [("/ws/.clinerules-code", Sample.Unreadable "EACCES");
     ("/ws/.clinerules", Sample.RegularFile "One.")]
    [] Cases.no_engine [] None Cases.languages.

(** A child that prints a configuration without a word on standard
    error, and one that is ended by a signal. *)
Definition quiet_world : World :=
  Sample.world [("/ws/.eslintrc", Sample.RegularFile "{}")]
    [(Cases.printed_config, Cases.computed_config); ("{}", VObj [])]
    Cases.no_engine
    [StdoutData "{"; StdoutData "}"; Close (Some 1%Z)]
    None [].

Definition killed_world : World :=
  Sample.world [("/ws/.eslintrc", Sample.RegularFile "{}")]
    [(Cases.printed_config, Cases.computed_config); ("{}", VObj [])]
    Cases.no_engine
    [StdoutData "{"; StdoutData "}"; Close None]
    None [].

(** A child that prints and never ends. *)
Definition hanging_world : World :=
  Sample.world [("/ws/.eslintrc.json", Sample.RegularFile "{}")]
    [("{}", VObj [])]
    Cases.no_engine
    [StdoutData "{"; StderrData "Waiting"]
    None [].

(** A child that prints the configuration of [Cases.computed_config] in
    a workspace with an .eslintrc.yml. *)
Definition printing_world : World :=
  Sample.world [("/ws/.eslintrc.yml", Sample.RegularFile "rules: {}")]
    [(Cases.printed_config, Cases.computed_config)]
    Cases.no_engine
    [StdoutData Cases.printed_config; Close (Some 0%Z)]
    None [].

End Shape.

(* ===================================================================== *)
(** * Further concrete inputs *)
(* ===================================================================== *)

Module MoreCases.

Import JS Sys.

Local Open Scope string_scope.

(** A workspace whose engine computes a configuration with an empty rule
    mapping, beside an .eslintrc.json that holds a rule. *)
Definition empty_probe_world : World :=
  Sample.world [("/ws/.eslintrc.json", Sample.RegularFile Cases.semi_text)]
    [(Cases.semi_text, VObj [("rules", Cases.rules_semi)])]
    (inr (VObj [("rules", VObj [])]))
    []
    (Some ["/ws"]) [].

(** A working directory without rule files whose table of display names
    has no entry for [fr]. *)
Definition no_french_world : World :=
  Sample.world [] [] Cases.no_engine [] None [("en", "English")].

End MoreCases.
(* ===================================================================== *)
(** * Laws of the monad *)
(* ===================================================================== *)

Local Open Scope string_scope.

Module MonadFacts.

Import JS Sys.

Lemma outcome_bind_ret {A B} (m : M A) (k : A -> M B) (a : A) :
  outcome m = Ret a -> outcome (bind m k) = outcome (k a).
Proof.
  destruct m as [t o]; simpl; intros ->; simpl.
  destruct (k a); reflexivity.
Qed.

Lemma outcome_bind_throw {A B} (m : M A) (k : A -> M B) (e : error) :
  outcome m = Throw e -> outcome (bind m k) = Throw e.
Proof. destruct m as [t o]; simpl; intros ->; reflexivity. Qed.

Lemma outcome_bind_pending {A B} (m : M A) (k : A -> M B) :
  outcome m = Pending -> outcome (bind m k) = Pending.
Proof. destruct m as [t o]; simpl; intros ->; reflexivity. Qed.

Lemma outcome_try_ret {A} (m : M A) (h : error -> M A) (a : A) :
  outcome m = Ret a -> outcome (try_catch m h) = Ret a.
Proof. destruct m as [t o]; simpl; intros ->; reflexivity. Qed.

Lemma outcome_try_throw {A} (m : M A) (h : error -> M A) (e : error) :
  outcome m = Throw e -> outcome (try_catch m h) = outcome (h e).
Proof.
  destruct m as [t o]; simpl; intros ->; simpl.
  destruct (h e); reflexivity.
Qed.

Lemma outcome_try_pending {A} (m : M A) (h : error -> M A) :
  outcome m = Pending -> outcome (try_catch m h) = Pending.
Proof. destruct m as [t o]; simpl; intros ->; reflexivity. Qed.

Lemma trace_bind_ret {A B} (m : M A) (k : A -> M B) (a : A) :
  outcome m = Ret a -> trace (bind m k) = (trace m ++ trace (k a))%list.
Proof.
  destruct m as [t o]; simpl; intros ->; simpl.
  destruct (k a); reflexivity.
Qed.

Lemma trace_bind_stop {A B} (m : M A) (k : A -> M B) :
  (forall a, outcome m <> Ret a) -> trace (bind m k) = trace m.
Proof.
  destruct m as [t [a | e |]]; simpl; intros H; try reflexivity.
  exfalso; apply (H a); reflexivity.
Qed.

Lemma trace_try_throw {A} (m : M A) (h : error -> M A) (e : error) :
  outcome m = Throw e -> trace (try_catch m h) = (trace m ++ trace (h e))%list.
Proof.
  destruct m as [t o]; simpl; intros ->; simpl.
  destruct (h e); reflexivity.
Qed.

Lemma trace_try_other {A} (m : M A) (h : error -> M A) :
  (forall e, outcome m <> Throw e) -> trace (try_catch m h) = trace m.
Proof.
  destruct m as [t [a | e |]]; simpl; intros H; try reflexivity.
  exfalso; apply (H e); reflexivity.
Qed.

Lemma surjective_run {A} (m : M A) : m = (trace m, outcome m).
Proof. destruct m; reflexivity. Qed.

End MonadFacts.

(** ** Small checks of the string functions *)

Example trim_ex1 : JS.trim ("  a b " ++ JS.LF) = "a b".
Proof. reflexivity. Qed.

Example trim_ex2 : JS.trim (" " ++ JS.LF ++ "  ") = "".
Proof. reflexivity. Qed.

Example basename_ex : Sample.basename "/ws/package.json" = "package.json".
Proof. reflexivity. Qed.

(* ===================================================================== *)
(** * Strings *)
(* ===================================================================== *)

Module StringFacts.

Lemma append_nil_r (s : string) : s ++ "" = s.
Proof. induction s as [| c s IH]; simpl; [reflexivity | now rewrite IH]. Qed.

Lemma append_assoc (a b c : string) : a ++ (b ++ c) = (a ++ b) ++ c.
Proof. induction a as [| x a IH]; simpl; [reflexivity | now rewrite IH]. Qed.

End StringFacts.

(* ===================================================================== *)
(** * The sub-process boundary *)
(* ===================================================================== *)

Module RunCommandFacts.

Import JS Sys Spec SubProcess MonadFacts.

Lemma feed_data (pre rest : list ChildEvent) (output : string) :
  forallb is_data pre = true ->
  outcome (feed (pre ++ rest) output) = outcome (feed rest (output ++ stdout_of pre)).
Proof.
  revert output.
  induction pre as [| ev pre IH]; intros output Hpre; simpl in *.
  - now rewrite StringFacts.append_nil_r.
  - destruct ev; simpl in Hpre; try discriminate.
    + rewrite IH by assumption. now rewrite StringFacts.append_assoc.
    + destruct (feed (pre ++ rest) output) as [t o] eqn:E.
      specialize (IH output Hpre). rewrite E in IH. exact IH.
Qed.

Lemma feed_console_only (evs : list ChildEvent) (output : string) :
  forallb (fun e => negb (is_fs_event e) && negb (is_probe_event e))
          (trace (feed evs output)) = true.
Proof.
  revert output.
  induction evs as [| ev evs IH]; intros output; simpl; [reflexivity |].
  destruct ev as [chunk | chunk | code | err]; simpl.
  - apply IH.
  - specialize (IH output). destruct (feed evs output) as [t o]. exact IH.
  - destruct ((Number_of_code code =? 0)%Z || (Number_of_code code =? 1)%Z);
      reflexivity.
  - reflexivity.
Qed.

Lemma feed_settles (evs : list ChildEvent) (output : string) :
  settles evs = true -> outcome (feed evs output) <> Pending.
Proof.
  revert output.
  induction evs as [| ev evs IH]; intros output; simpl; [discriminate |].
  destruct ev as [chunk | chunk | code | err]; simpl; intros H.
  - apply IH, H.
  - specialize (IH output H). destruct (feed evs output) as [t o]. exact IH.
  - destruct ((Number_of_code code =? 0)%Z || (Number_of_code code =? 1)%Z);
      discriminate.
  - discriminate.
Qed.

Lemma runCommand_outcome w command options projectFolder :
  outcome (runCommand w command options projectFolder)
  = outcome (feed (child_spawn w command options projectFolder) "").
Proof.
  unfold runCommand. simpl.
  destruct (feed _ _); reflexivity.
Qed.

End RunCommandFacts.

(* ===================================================================== *)
(** * The in-process resolver *)
(* ===================================================================== *)

Module InProcessFacts.

Import JS Sys Spec InProcess MonadFacts.

Lemma truthy_opt_prop_undefined : truthy (opt_prop VNull "rules") = false.
Proof. reflexivity. Qed.

(** A truthy [v?.k] is [v.k]. *)
Lemma opt_prop_truthy (v : value) (k : string) :
  truthy (opt_prop v k) = true -> prop v k = opt_prop v k.
Proof. destruct v; simpl; intros H; try reflexivity; discriminate. Qed.

Ltac yields_inv H :=
  let cfg := fresh "cfg" in
  let Hc := fresh "Hc" in
  let Hr := fresh "Hr" in
  let Ht := fresh "Ht" in
  destruct H as (cfg & Hc & Hr & Ht);
  inversion Hc; subst; clear Hc.

(** [parseESLintConfig] always returns, and what it returns holds rules
    exactly when the candidate exists, parses and holds rules. *)
Lemma parseESLintConfig_spec (w : World) (p : string) :
  exists v,
    outcome (parseESLintConfig w p) = Ret v /\
    (forall e, In e (trace (parseESLintConfig w p)) ->
       e = EvExists p \/ e = EvReadFile p) /\
    (forall r, file_yields w p r <-> (opt_prop v "rules" = r /\ truthy r = true)).
Proof.
  unfold parseESLintConfig, existsSync, getESLintConfigFromPackageJson,
    readFileSync, JSON_parse.
  simpl.
  destruct (fs_exists w p) eqn:Hex; simpl.
  2:{ exists VNull. split; [reflexivity |]. split.
      - simpl. intros e [<- | []]. now left.
      - intros r; split.
        + intros H. yields_inv H; congruence.
        + intros [<- H]. discriminate. }
  destruct (String.eqb_spec (path_basename w p) "package.json") as [Hb | Hb]; simpl.
  - destruct (fs_readFile w p) as [err | content] eqn:Hrd; simpl.
    { exists VNull. split; [reflexivity |]. split.
      - simpl. intros e [<- | [<- | []]]; auto.
      - intros r; split.
        + intros H. yields_inv H; congruence.
        + intros [<- H]. discriminate. }
    destruct (json_parse w content) as [pkg |] eqn:Hjs; simpl.
    2:{ exists VNull. split; [reflexivity |]. split.
        - simpl. intros e [<- | [<- | []]]; auto.
        - intros r; split.
          + intros H. yields_inv H; congruence.
          + intros [<- H]. discriminate. }
    assert (Htr : forall e, In e [EvExists p; EvReadFile p] ->
                            e = EvExists p \/ e = EvReadFile p).
    { simpl. intros e [<- | [<- | []]]; auto. }
    assert (Hnull : forall r, opt_prop pkg "eslintConfig" = VUndefined ->
              (file_yields w p r <-> opt_prop VNull "rules" = r /\ truthy r = true)).
    { intros r Hu; split.
      - intros H. yields_inv H; try congruence.
        assert (content0 = content) by congruence; subst.
        assert (pkg0 = pkg) by congruence; subst.
        rewrite Hu in *. discriminate.
      - intros [<- H]. discriminate. }
    destruct pkg; simpl;
      try (exists VNull; split; [reflexivity |]; split; [exact Htr |];
           intros r; apply Hnull; reflexivity).
    unfold or_else.
    destruct (truthy (lookup "eslintConfig" props)) eqn:Hec; simpl.
    + exists (lookup "eslintConfig" props). split; [reflexivity |].
      split; [exact Htr |].
      intros r; split.
      * intros H. yields_inv H; try congruence.
        assert (content0 = content) by congruence; subst.
        assert (pkg = VObj props) by congruence; subst.
        simpl. auto.
      * intros [Hr Ht].
        exists (opt_prop (VObj props) "eslintConfig").
        split; [| split; [exact Hr | exact Ht]].
        eapply FC_package; eauto.
    + exists VNull. split; [reflexivity |]. split; [exact Htr |].
      intros r; split.
      * intros H. yields_inv H; try congruence.
        assert (content0 = content) by congruence; subst.
        assert (pkg = VObj props) by congruence; subst.
        simpl in *. congruence.
      * intros [<- H]. discriminate.
  - destruct (fs_readFile w p) as [err | content] eqn:Hrd; simpl.
    { exists VNull. split; [reflexivity |]. split.
      - simpl. intros e [<- | [<- | []]]; auto.
      - intros r; split.
        + intros H. yields_inv H; congruence.
        + intros [<- H]. discriminate. }
    destruct (json_parse w content) as [config |] eqn:Hjs; simpl.
    + exists config. split; [reflexivity |]. split.
      * simpl. intros e [<- | [<- | []]]; auto.
      * intros r; split.
        -- intros H. yields_inv H; try congruence.
           assert (content0 = content) by congruence; subst.
           assert (cfg = config) by congruence; subst. auto.
        -- intros [Hr Ht]. exists config. split; [| auto].
           eapply FC_plain; eauto.
    + exists VNull. split; [reflexivity |]. split.
      * simpl. intros e [<- | [<- | []]]; auto.
      * intros r; split.
        -- intros H. yields_inv H; congruence.
        -- intros [<- H]. discriminate.
Qed.

End InProcessFacts.

Module ScanFacts.

Import JS Sys Spec InProcess MonadFacts InProcessFacts.

Section WithWorld.

Variable w : World.

(** The loop returns the rules of the first candidate that yields some,
    and [null] when none does. *)
Lemma scanConfigPaths_spec (l : list string) :
  exists v,
    outcome (scanConfigPaths w l) = Ret v /\
    ((v = VNull /\ Forall (file_yields_nothing w) l) \/
     (truthy v = true /\
      exists l1 p l2,
        l = (l1 ++ p :: l2)%list /\
        Forall (file_yields_nothing w) l1 /\ file_yields w p v)).
Proof.
  induction l as [| p l IH]; simpl.
  - exists VNull. split; [reflexivity |]. left. split; [reflexivity | constructor].
  - destruct (parseESLintConfig_spec w p) as (c & Hc & _ & Hy).
    destruct (truthy (opt_prop c "rules")) eqn:Ht.
    + exists (opt_prop c "rules"). split.
      * rewrite (outcome_bind_ret _ _ c Hc), Ht.
        now rewrite opt_prop_truthy.
      * right. split; [exact Ht |].
        exists [], p, l. repeat split; [constructor |].
        apply Hy. auto.
    + destruct IH as (v & Hv & IH).
      exists v. split.
      * rewrite (outcome_bind_ret _ _ c Hc), Ht. exact Hv.
      * assert (Hn : file_yields_nothing w p).
        { intros r Hr. apply Hy in Hr. destruct Hr as [<- Hr]. congruence. }
        destruct IH as [[-> Hall] | (Htv & l1 & p' & l2 & -> & Hall & Hp')].
        -- left. split; [reflexivity | constructor; assumption].
        -- right. split; [exact Htv |].
           exists (p :: l1), p', l2. repeat split; [constructor |]; assumption.
Qed.

Lemma file_yields_functional (p : string) (r r' : value) :
  file_yields w p r -> file_yields w p r' -> r = r'.
Proof.
  intros H H'.
  destruct (parseESLintConfig_spec w p) as (c & _ & _ & Hy).
  apply Hy in H. apply Hy in H'.
  destruct H as [<- _], H' as [<- _]. reflexivity.
Qed.

(** First match: candidates before the first one that yields rules are
    passed over, candidates after it are not consulted. *)
Lemma scanConfigPaths_first (l1 l2 : list string) (p : string) (r : value) :
  Forall (file_yields_nothing w) l1 ->
  file_yields w p r ->
  outcome (scanConfigPaths w (l1 ++ p :: l2)) = Ret r.
Proof.
  intros Hall Hp.
  induction Hall as [| a l1 Ha Hall IH]; simpl.
  - destruct (parseESLintConfig_spec w p) as (c & Hc & _ & Hy).
    destruct (proj1 (Hy r) Hp) as [Hr Ht].
    rewrite (outcome_bind_ret _ _ c Hc), Hr, Ht.
    rewrite opt_prop_truthy, Hr by (rewrite Hr; exact Ht). reflexivity.
  - destruct (parseESLintConfig_spec w a) as (c & Hc & _ & Hy).
    rewrite (outcome_bind_ret _ _ c Hc).
    destruct (truthy (opt_prop c "rules")) eqn:Ht; [| exact IH].
    exfalso. apply (Ha (opt_prop c "rules")). apply Hy. auto.
Qed.

Lemma scanConfigPaths_none (l : list string) :
  Forall (file_yields_nothing w) l ->
  outcome (scanConfigPaths w l) = Ret VNull.
Proof.
  intros Hall.
  destruct (scanConfigPaths_spec l) as (v & Hv & Hcases).
  rewrite Hv. f_equal.
  destruct Hcases as [[-> _] | (_ & l1 & p & l2 & -> & _ & Hp)]; [reflexivity |].
  apply Forall_app in Hall as [_ Hall].
  inversion Hall; subst. exfalso. eapply H1; eauto.
Qed.

(** Reading the specification's predicates off a run of the parser. *)
Lemma file_yields_of_run (p : string) (v : value) :
  outcome (parseESLintConfig w p) = Ret v ->
  truthy (opt_prop v "rules") = true ->
  file_yields w p (opt_prop v "rules").
Proof.
  intros Hrun Ht.
  destruct (parseESLintConfig_spec w p) as (c & Hc & _ & Hy).
  rewrite Hrun in Hc. injection Hc as <-.
  apply Hy. auto.
Qed.

Lemma file_yields_nothing_of_run (p : string) (v : value) :
  outcome (parseESLintConfig w p) = Ret v ->
  truthy (opt_prop v "rules") = false ->
  file_yields_nothing w p.
Proof.
  intros Hrun Ht r Hr.
  destruct (parseESLintConfig_spec w p) as (c & Hc & _ & Hy).
  rewrite Hrun in Hc. injection Hc as <-.
  apply Hy in Hr. destruct Hr as [<- Hr]. congruence.
Qed.

(** The probe of the in-process resolver never throws. *)
Lemma getFullESLintConfig_outcome (ws : string) :
  outcome (getFullESLintConfig w ws)
  = Ret (match eslint_calculateConfigForFile w ws "dummy.ts" with
         | inr config => config
         | inl _ => VNull
         end).
Proof.
  unfold getFullESLintConfig.
  destruct (eslint_calculateConfigForFile w ws "dummy.ts"); reflexivity.
Qed.

Lemma probe_rules_eq (ws : string) :
  probe_rules w ws
  = opt_prop (match eslint_calculateConfigForFile w ws "dummy.ts" with
              | inr config => config
              | inl _ => VNull
              end) "rules".
Proof.
  unfold probe_rules.
  destruct (eslint_calculateConfigForFile w ws "dummy.ts"); reflexivity.
Qed.

(** The resolver, once a workspace is given. *)
Lemma resolve_in_workspace (ws : string) :
  workspace w = Some ws ->
  outcome (getWorkspaceESLintRules w)
  = if truthy (probe_rules w ws)
    then Ret (probe_rules w ws)
    else outcome (scanConfigPaths w (getESLintConfigPaths w ws)).
Proof.
  unfold workspace, getWorkspaceESLintRules.
  destruct (workspacePath_of (vscode_workspaceFolders w)) as [p |]; [| discriminate].
  destruct (str_truthy p) eqn:Hp; [| discriminate].
  intros [= ->].
  rewrite (outcome_bind_ret _ _ _ (getFullESLintConfig_outcome ws)).
  rewrite probe_rules_eq.
  destruct (truthy (opt_prop _ "rules")) eqn:Ht; [| reflexivity].
  now rewrite opt_prop_truthy.
Qed.

Lemma resolve_without_workspace :
  workspace w = None -> getWorkspaceESLintRules w = ([], Ret VNull).
Proof.
  unfold workspace, getWorkspaceESLintRules.
  destruct (workspacePath_of (vscode_workspaceFolders w)) as [p |]; [| reflexivity].
  destruct (str_truthy p); [discriminate | reflexivity].
Qed.

(** When the probe yields rules, nothing but the probe is run. *)
Lemma resolve_probe_first (ws : string) (config r : value) :
  workspace w = Some ws ->
  eslint_calculateConfigForFile w ws "dummy.ts" = inr config ->
  prop config "rules" = r ->
  truthy r = true ->
  getWorkspaceESLintRules w = ([EvCalculateConfig ws "dummy.ts"], Ret r).
Proof.
  unfold workspace, getWorkspaceESLintRules, getFullESLintConfig.
  destruct (workspacePath_of (vscode_workspaceFolders w)) as [p |]; [| discriminate].
  destruct (str_truthy p) eqn:Hp; [| discriminate].
  intros [= ->] -> <- Ht. simpl.
  assert (Ho : opt_prop config "rules" = prop config "rules").
  { destruct config; try reflexivity; discriminate. }
  rewrite Ho, Ht. reflexivity.
Qed.

End WithWorld.

End ScanFacts.

(* ===================================================================== *)
(** * The sub-process resolver *)
(* ===================================================================== *)

Module SubProcessFacts.

Import JS Sys Spec SubProcess MonadFacts RunCommandFacts.

Lemma forallb_weaken {A} (f g : A -> bool) (l : list A) :
  (forall x, f x = true -> g x = true) ->
  forallb f l = true -> forallb g l = true.
Proof.
  intros Hfg. induction l as [| x l IH]; simpl; [reflexivity |].
  intros H. apply andb_true_iff in H as [Hx Hl].
  now rewrite (Hfg x Hx), IH.
Qed.

Section WithWorld.

Variable w : World.

(** The existence scan looks at the candidates in order, up to the first
    one that exists. *)
Lemma firstExisting_spec (l : list string) :
  forallb (fun e => match e with EvExists _ => true | _ => false end)
          (trace (firstExisting w l)) = true /\
  ((outcome (firstExisting w l) = Ret None /\
    Forall (fun p => fs_exists w p = false) l) \/
   (exists p, outcome (firstExisting w l) = Ret (Some p) /\
              In p l /\ fs_exists w p = true)).
Proof.
  induction l as [| p l [IHt IH]]; simpl.
  - split; [reflexivity |]. left. split; [reflexivity | constructor].
  - unfold InProcess.existsSync. simpl.
    destruct (fs_exists w p) eqn:Hex; simpl.
    + split; [reflexivity |]. right. exists p. auto.
    + destruct (firstExisting w l) as [t o]; simpl in *.
      split; [exact IHt |].
      destruct IH as [[-> Hall] | (p' & -> & Hin & Hp')].
      * left. split; [reflexivity | constructor; assumption].
      * right. exists p'. auto.
Qed.

(** The probe of the sub-process resolver never throws, and leaves the
    file system alone. *)
Lemma getFullESLintConfig_cases (ws f : string) :
  forallb (fun e => negb (is_fs_event e))
          (trace (getFullESLintConfig w ws f)) = true /\
  ((exists v, outcome (getFullESLintConfig w ws f) = Ret v) \/
   (outcome (getFullESLintConfig w ws f) = Pending /\
    settles (print_config w ws f) = false)).
Proof.
  unfold getFullESLintConfig, runCommand, print_config, InProcess.JSON_parse,
    InProcess.console_error.
  pose proof (feed_console_only
                (child_spawn w "npx" ["eslint"; "--print-config"; f] ws) "") as Ht.
  pose proof (feed_settles
                (child_spawn w "npx" ["eslint"; "--print-config"; f] ws) "") as Hs.
  apply (forallb_weaken _ (fun e => negb (is_fs_event e))) in Ht.
  2:{ intros x Hx. apply andb_true_iff in Hx as [Hx _]. exact Hx. }
  destruct (feed _ "") as [t o]. simpl in *.
  destruct o as [s | e |]; simpl.
  - destruct (json_parse w s) as [v |]; simpl.
    + rewrite !app_nil_r. split; [exact Ht | left; eauto].
    + rewrite !app_nil_r, forallb_app, Ht. split; [reflexivity | left; eauto].
  - rewrite forallb_app, Ht. split; [reflexivity | left; eauto].
  - split; [exact Ht |]. right. split; [reflexivity |].
    destruct (settles _); [| reflexivity].
    exfalso. now apply Hs.
Qed.

Lemma getWorkspaceESLintRules_trace (d : string) :
  forallb (fun e => negb (is_read_event e))
          (trace (getWorkspaceESLintRules w d)) = true.
Proof.
  unfold getWorkspaceESLintRules, getConfigPath.
  set (ws := utils_getWorkspacePath w d).
  destruct (firstExisting_spec (getESLintConfigPaths w ws)) as [Ht _].
  apply (forallb_weaken _ (fun e => negb (is_read_event e))) in Ht.
  2:{ intros [] Hx; try discriminate; reflexivity. }
  destruct (firstExisting w (getESLintConfigPaths w ws)) as [t [[p |] | e |]];
    simpl in *; try (rewrite ?app_nil_r; exact Ht).
  destruct (str_truthy p); simpl; [| rewrite app_nil_r; exact Ht].
  destruct (getFullESLintConfig_cases ws p) as [Hp _].
  apply (forallb_weaken _ (fun e => negb (is_read_event e))) in Hp.
  2:{ intros [] Hx; try discriminate; reflexivity. }
  destruct (getFullESLintConfig w ws p) as [t' [v | e |]]; simpl in *;
    try (rewrite forallb_app, Ht; exact Hp).
  destruct (truthy v); simpl; rewrite app_nil_r, forallb_app, Ht; exact Hp.
Qed.

(** Without a conventional configuration file the probe is not run. *)
Lemma getWorkspaceESLintRules_no_file (d : string) :
  no_config_file w (utils_getWorkspacePath w d) ->
  outcome (getWorkspaceESLintRules w d) = Ret VNull /\
  forallb (fun e => negb (is_probe_event e))
          (trace (getWorkspaceESLintRules w d)) = true.
Proof.
  unfold no_config_file, getWorkspaceESLintRules, getConfigPath.
  set (ws := utils_getWorkspacePath w d). intros Hnone.
  destruct (firstExisting_spec (getESLintConfigPaths w ws)) as [Ht Hcases].
  apply (forallb_weaken _ (fun e => negb (is_probe_event e))) in Ht.
  2:{ intros [] Hx; try discriminate; reflexivity. }
  destruct Hcases as [[Ho _] | (p & _ & Hin & Hp)].
  - destruct (firstExisting w (getESLintConfigPaths w ws)) as [t o];
      simpl in *; subst o; simpl.
    rewrite app_nil_r. auto.
  - rewrite Forall_forall in Hnone. rewrite (Hnone p Hin) in Hp. discriminate.
Qed.

(** How [runCommand] ends on a run whose first settling event is [fin]. *)
Lemma runCommand_settled command options projectFolder pre fin post :
  child_spawn w command options projectFolder = (pre ++ fin :: post)%list ->
  forallb is_data pre = true ->
  (exit_ok fin ->
   outcome (runCommand w command options projectFolder) = Ret (stdout_of pre)) /\
  (exit_failure fin ->
   outcome (runCommand w command options projectFolder) = Throw (rejection fin)).
Proof.
  intros Hrun Hpre.
  rewrite runCommand_outcome, Hrun, feed_data by assumption. simpl.
  split.
  - intros [-> | ->]; reflexivity.
  - intros [(n & -> & H0 & H1) | (e & ->)]; simpl; [| reflexivity].
    apply Z.eqb_neq in H0. apply Z.eqb_neq in H1.
    rewrite H0, H1. reflexivity.
Qed.

(** A failing probe is a [null] configuration. *)
Lemma getFullESLintConfig_failure (ws : string) :
  print_config_fails w ws ->
  forall f, outcome (getFullESLintConfig w ws f) = Ret VNull.
Proof.
  intros Hfail f.
  destruct (Hfail f) as (pre & fin & post & Hrun & Hpre & Hcase).
  destruct (runCommand_settled _ _ _ _ _ _ Hrun Hpre) as [Hok Hbad].
  unfold getFullESLintConfig.
  destruct Hcase as [Hf | [Hf Hjs]].
  - rewrite (outcome_try_throw _ _ (rejection fin)); [reflexivity |].
    apply outcome_bind_throw, Hbad, Hf.
  - rewrite (outcome_try_throw _ _ (plain_error "SyntaxError")); [reflexivity |].
    rewrite (outcome_bind_ret _ _ _ (Hok Hf)).
    unfold InProcess.JSON_parse. rewrite Hjs. reflexivity.
Qed.

(** The resolver never throws; it returns once the child has settled. *)
Lemma getWorkspaceESLintRules_cases (d : string) :
  (exists v, outcome (getWorkspaceESLintRules w d) = Ret v) \/
  (outcome (getWorkspaceESLintRules w d) = Pending /\
   exists p, settles (print_config w (utils_getWorkspacePath w d) p) = false).
Proof.
  unfold getWorkspaceESLintRules, getConfigPath.
  set (ws := utils_getWorkspacePath w d).
  destruct (firstExisting_spec (getESLintConfigPaths w ws)) as [_ Hcases].
  destruct Hcases as [[Ho _] | (p & Ho & _)].
  - left. exists VNull. rewrite (outcome_bind_ret _ _ _ Ho). reflexivity.
  - rewrite (outcome_bind_ret _ _ _ Ho).
    destruct (str_truthy p); simpl; [| left; eexists; reflexivity].
    destruct (getFullESLintConfig_cases ws p) as [_ [(v & Hv) | (Hv & Hs)]].
    + left. rewrite (outcome_bind_ret _ _ _ Hv).
      destruct (truthy v); eexists; reflexivity.
    + right. rewrite (outcome_bind_pending _ _ Hv). eauto.
Qed.

End WithWorld.

End SubProcessFacts.

Module C1.

Import JS Sys Spec MonadFacts.

(** C1 (amended).  In the in-process variant, for every workspace in
    which the probe succeeds and yields a non-empty rule mapping,
    [getWorkspaceESLintRules] returns that mapping verbatim and runs
    nothing but the probe: the file-based fallback is not executed.  In
    the sub-process variant the resolver never reads a configuration
    file, and the probe is run only when one of the conventional files
    exists: with none, the resolver returns [null] without running the
    probe. *)
Theorem probe_takes_precedence :
  forall w : World,
    (forall ws config r,
       workspace w = Some ws ->
       eslint_calculateConfigForFile w ws "dummy.ts" = inr config ->
       prop config "rules" = r ->
       nonempty_mapping r ->
       InProcess.getWorkspaceESLintRules w
       = ([EvCalculateConfig ws "dummy.ts"], Ret r)) /\
    (forall d,
       forallb (fun e => negb (is_read_event e))
               (trace (SubProcess.getWorkspaceESLintRules w d)) = true /\
       (no_config_file w (utils_getWorkspacePath w d) ->
        outcome (SubProcess.getWorkspaceESLintRules w d) = Ret VNull /\
        forallb (fun e => negb (is_probe_event e))
                (trace (SubProcess.getWorkspaceESLintRules w d)) = true)).
Proof.
  intros w. split.
  - intros ws config r Hws Hprobe Hr (kv & kvs & Hne).
    eapply ScanFacts.resolve_probe_first; eauto.
    rewrite Hne. reflexivity.
  - intros d. split.
    + apply SubProcessFacts.getWorkspaceESLintRules_trace.
    + apply SubProcessFacts.getWorkspaceESLintRules_no_file.
Qed.

Lemma probe_takes_precedence_witness :
  InProcess.getWorkspaceESLintRules Cases.differing_world
  = ([EvCalculateConfig "/ws" "dummy.ts"], Ret Cases.rules_semi) /\
  outcome (SubProcess.getWorkspaceESLintRules Cases.package_only_world "") = Ret VNull.
Proof.
  split.
  - apply (proj1 (probe_takes_precedence Cases.differing_world)
             "/ws" Cases.computed_config Cases.rules_semi);
      try reflexivity.
    exists ("semi", VStr "error"), []. reflexivity.
  - apply (proj2 (proj2 (probe_takes_precedence Cases.package_only_world) "")).
    unfold no_config_file. simpl. repeat constructor.
Defined.

(** C1 as stated fails in the sub-process variant: in a workspace
    configured through package.json alone the probe would yield a
    non-empty rule mapping on whatever file it is run, and the resolver
    returns [null]. *)
Lemma probe_skipped_without_config_file :
  (forall f,
     outcome (SubProcess.getFullESLintConfig Cases.package_only_world "/ws" f)
     = Ret Cases.computed_config) /\
  prop Cases.computed_config "rules" = Cases.rules_semi /\
  nonempty_mapping Cases.rules_semi /\
  utils_getWorkspacePath Cases.package_only_world "" = "/ws" /\
  outcome (SubProcess.getWorkspaceESLintRules Cases.package_only_world "") = Ret VNull /\
  VNull <> Cases.rules_semi.
Proof.
  repeat split; try reflexivity; try discriminate.
  exists ("semi", VStr "error"), []. reflexivity.
Qed.

End C1.

Module C2.

Import JS Sys Spec MonadFacts.

(** C2 (amended).  In the in-process variant the file-based fallback
    runs exactly when the probe fails or the configuration it computes
    holds no truthy [rules] value.  A probe that succeeds with a rule
    mapping, the empty one too, is returned as it is and nothing is
    scanned.  When the fallback runs, the resolver scans .eslintrc,
    .eslintrc.js, .eslintrc.json, .eslintrc.yaml, .eslintrc.yml and
    package.json of the workspace root in this order and returns the
    rules of the first candidate that exists, parses and holds a truthy
    [rules] value, which every rule mapping is, the empty one too; a
    candidate that is absent, unparseable or without rules never wins
    over a later one, and with no candidate left the result is [null].
    The sub-process variant has no such fallback: when its probe fails,
    the result is [null]. *)
Theorem fallback_first_match :
  forall w : World,
    (forall ws,
       workspace w = Some ws ->
       truthy (probe_rules w ws) = false ->
       InProcess.getESLintConfigPaths w ws
       = map (path_join w ws)
           [".eslintrc"; ".eslintrc.js"; ".eslintrc.json"; ".eslintrc.yaml";
            ".eslintrc.yml"; "package.json"] /\
       (forall l1 p l2 r,
          InProcess.getESLintConfigPaths w ws = (l1 ++ p :: l2)%list ->
          Forall (file_yields_nothing w) l1 ->
          file_yields w p r ->
          outcome (InProcess.getWorkspaceESLintRules w) = Ret r) /\
       (Forall (file_yields_nothing w) (InProcess.getESLintConfigPaths w ws) ->
        outcome (InProcess.getWorkspaceESLintRules w) = Ret VNull)) /\
    (forall d,
       print_config_fails w (utils_getWorkspacePath w d) ->
       outcome (SubProcess.getWorkspaceESLintRules w d) = Ret VNull) /\
    (forall ws,
       workspace w = Some ws ->
       (truthy (probe_rules w ws) = false <->
        ((exists e, eslint_calculateConfigForFile w ws "dummy.ts" = inl e) \/
         (exists config,
            eslint_calculateConfigForFile w ws "dummy.ts" = inr config /\
            truthy (opt_prop config "rules") = false))) /\
       (truthy (probe_rules w ws) = true ->
        InProcess.getWorkspaceESLintRules w
        = ([EvCalculateConfig ws "dummy.ts"], Ret (probe_rules w ws))) /\
       (forall config,
          eslint_calculateConfigForFile w ws "dummy.ts" = inr config ->
          prop config "rules" = VObj [] ->
          InProcess.getWorkspaceESLintRules w
          = ([EvCalculateConfig ws "dummy.ts"], Ret (VObj [])))).
Proof.
  intros w. split; [| split].
  - intros ws Hws Hprobe. split; [reflexivity |].
    rewrite (ScanFacts.resolve_in_workspace w ws Hws), Hprobe.
    split.
    + intros l1 p l2 r -> Hall Hp.
      now apply ScanFacts.scanConfigPaths_first.
    + apply ScanFacts.scanConfigPaths_none.
  - intros d Hfail.
    unfold SubProcess.getWorkspaceESLintRules, SubProcess.getConfigPath.
    set (ws := utils_getWorkspacePath w d) in *.
    destruct (SubProcessFacts.firstExisting_spec w (SubProcess.getESLintConfigPaths w ws))
      as [_ [[Ho _] | (p & Ho & _)]];
      rewrite (outcome_bind_ret _ _ _ Ho); [reflexivity |].
    destruct (str_truthy p); simpl; [| reflexivity].
    rewrite (outcome_bind_ret _ _ VNull); [reflexivity |].
    apply SubProcessFacts.getFullESLintConfig_failure, Hfail.
  - intros ws Hws. split; [| split].
    + unfold probe_rules.
      destruct (eslint_calculateConfigForFile w ws "dummy.ts") as [e | config];
        split.
      * intros _. left. eauto.
      * reflexivity.
      * intros Ht. right. eauto.
      * intros [(e & He) | (c & [= <-] & Ht)]; [discriminate | exact Ht].
    + intros Ht. unfold probe_rules in *.
      destruct (eslint_calculateConfigForFile w ws "dummy.ts") as [e | config] eqn:Hc;
        [discriminate |].
      apply (ScanFacts.resolve_probe_first w ws config _ Hws Hc); [| exact Ht].
      now apply InProcessFacts.opt_prop_truthy.
    + intros config Hc Hrules.
      now apply (ScanFacts.resolve_probe_first w ws config (VObj []) Hws Hc Hrules).
Qed.

Lemma fallback_first_match_witness :
  outcome (InProcess.getWorkspaceESLintRules Cases.fallback_world)
  = Ret Cases.rules_semi /\
  InProcess.getWorkspaceESLintRules MoreCases.empty_probe_world
  = ([EvCalculateConfig "/ws" "dummy.ts"], Ret (VObj [])).
Proof.
  split.
  2:{ apply (proj2 (proj2 (proj2 (proj2 (fallback_first_match
                                           MoreCases.empty_probe_world))
                             "/ws" eq_refl))
               (VObj [("rules", VObj [])]));
        reflexivity. }
  apply (proj1 (proj2 (proj1 (fallback_first_match Cases.fallback_world)
                         "/ws" eq_refl eq_refl))
           ["/ws/.eslintrc"; "/ws/.eslintrc.js"] "/ws/.eslintrc.json"
           ["/ws/.eslintrc.yaml"; "/ws/.eslintrc.yml"; "/ws/package.json"]
           Cases.rules_semi).
  - reflexivity.
  - constructor; [| constructor; [| constructor]].
    + apply (ScanFacts.file_yields_nothing_of_run _ _ VNull); reflexivity.
    + apply (ScanFacts.file_yields_nothing_of_run _ _ VNull); reflexivity.
  - apply (ScanFacts.file_yields_of_run Cases.fallback_world "/ws/.eslintrc.json"
             (VObj [("rules", Cases.rules_semi)])); reflexivity.
Defined.

(** C2 as stated fails: with a failing probe, an .eslintrc whose rule
    mapping is empty wins over the .eslintrc.json that holds a rule. *)
Lemma empty_mapping_wins :
  workspace Cases.empty_first_world = Some "/ws" /\
  truthy (probe_rules Cases.empty_first_world "/ws") = false /\
  file_config Cases.empty_first_world "/ws/.eslintrc" (VObj [("rules", VObj [])]) /\
  file_yields Cases.empty_first_world "/ws/.eslintrc.json" Cases.rules_semi /\
  nonempty_mapping Cases.rules_semi /\
  outcome (InProcess.getWorkspaceESLintRules Cases.empty_first_world) = Ret (VObj []).
Proof.
  repeat split.
  - eapply FC_plain; try reflexivity. discriminate.
  - apply (ScanFacts.file_yields_of_run Cases.empty_first_world "/ws/.eslintrc.json"
             (VObj [("rules", Cases.rules_semi)])); reflexivity.
  - exists ("semi", VStr "error"), []. reflexivity.
Qed.

End C2.

Module C3.

Import JS Sys Spec MonadFacts.

(** C3 (amended).  Neither resolver ever throws, whatever the file
    system, the parser, the engine and the child process do: every I/O or
    parse failure is caught and the source concerned yields nothing.  The
    in-process resolver always returns, and returns [null] exactly when
    there is no workspace or the probe and every candidate file are
    exhausted without yielding rules.  The sub-process resolver returns
    as soon as the child process settles; it returns [null] when no
    conventional configuration file exists, without trying the probe, and
    when the probe fails. *)
Theorem resolve_never_throws :
  forall w : World,
    (exists v,
       outcome (InProcess.getWorkspaceESLintRules w) = Ret v /\
       (v = VNull <-> exhausted w)) /\
    (forall d,
       (forall e, outcome (SubProcess.getWorkspaceESLintRules w d) <> Throw e) /\
       ((forall p, settles (print_config w (utils_getWorkspacePath w d) p) = true) ->
        exists v, outcome (SubProcess.getWorkspaceESLintRules w d) = Ret v) /\
       (no_config_file w (utils_getWorkspacePath w d) ->
        outcome (SubProcess.getWorkspaceESLintRules w d) = Ret VNull) /\
       (print_config_fails w (utils_getWorkspacePath w d) ->
        outcome (SubProcess.getWorkspaceESLintRules w d) = Ret VNull)).
Proof.
  intros w. split.
  - unfold exhausted.
    destruct (workspace w) as [ws |] eqn:Hws.
    + rewrite (ScanFacts.resolve_in_workspace w ws Hws).
      destruct (truthy (probe_rules w ws)) eqn:Hp.
      * exists (probe_rules w ws). split; [reflexivity |]. split.
        -- intros Hv. rewrite Hv in Hp. discriminate.
        -- intros [? _]. discriminate.
      * destruct (ScanFacts.scanConfigPaths_spec w (InProcess.getESLintConfigPaths w ws))
          as (v & Hv & Hcases).
        exists v. split; [exact Hv |].
        destruct Hcases as [[-> Hall] | (Ht & l1 & p & l2 & Heq & _ & Hy)].
        -- split; auto.
        -- split.
           ++ intros ->. discriminate.
           ++ intros [_ Hall]. rewrite Heq in Hall.
              apply Forall_app in Hall as [_ Hall].
              inversion Hall; subst. exfalso. eapply H1; eauto.
    + rewrite (ScanFacts.resolve_without_workspace w Hws).
      exists VNull. split; [reflexivity |]. split; auto.
  - intros d.
    pose proof (SubProcessFacts.getWorkspaceESLintRules_cases w d) as Hcases.
    repeat split.
    + intros e He. destruct Hcases as [(v & Hv) | (Hv & _)]; congruence.
    + intros Hs. destruct Hcases as [Hv | (_ & p & Hp)]; [exact Hv |].
      rewrite Hs in Hp. discriminate.
    + intros Hnone.
      apply SubProcessFacts.getWorkspaceESLintRules_no_file, Hnone.
    + intros Hfail.
      unfold SubProcess.getWorkspaceESLintRules, SubProcess.getConfigPath.
      set (ws := utils_getWorkspacePath w d) in *.
      destruct (SubProcessFacts.firstExisting_spec w (SubProcess.getESLintConfigPaths w ws))
        as [_ [[Ho _] | (p & Ho & _)]];
        rewrite (outcome_bind_ret _ _ _ Ho); [reflexivity |].
      destruct (str_truthy p); simpl; [| reflexivity].
      rewrite (outcome_bind_ret _ _ VNull); [reflexivity |].
      apply SubProcessFacts.getFullESLintConfig_failure, Hfail.
Qed.

Lemma resolve_never_throws_witness :
  outcome (SubProcess.getWorkspaceESLintRules Cases.exit2_world "") = Ret VNull /\
  outcome (SubProcess.getWorkspaceESLintRules Cases.flat_config_world "") = Ret VNull.
Proof.
  split.
  - apply (proj2 (proj2 (proj2 (proj2 (resolve_never_throws Cases.exit2_world) "")))).
    intros f.
    exists [StdoutData Cases.printed_config; StderrData "Oops"], (Close (Some 2%Z)), [].
    repeat split.
    left. left. exists 2%Z. repeat split; discriminate.
  - apply (proj1 (proj2 (proj2 (proj2 (resolve_never_throws Cases.flat_config_world) "")))).
    unfold no_config_file. simpl. repeat constructor.
Defined.

(** C3 as stated fails in the sub-process variant: in a workspace
    configured through eslint.config.js the resolver returns [null]
    although a source is left that yields rules, the probe, which it never
    tried. *)
Lemma null_before_exhaustion :
  outcome (SubProcess.getWorkspaceESLintRules Cases.flat_config_world "") = Ret VNull /\
  forallb (fun e => negb (is_probe_event e))
          (trace (SubProcess.getWorkspaceESLintRules Cases.flat_config_world "")) = true /\
  (forall f,
     outcome (SubProcess.getFullESLintConfig Cases.flat_config_world "/ws" f)
     = Ret Cases.computed_config) /\
  nonempty_mapping (prop Cases.computed_config "rules").
Proof.
  repeat split.
  exists ("semi", VStr "error"), []. reflexivity.
Qed.

End C3.

Module C4.

Import JS Sys Spec SubProcess MonadFacts RunCommandFacts.

(** A child ended by a signal closes with the code [null], which
    [Number] turns into 0: the output counts as a result. *)
Remark runCommand_signal w command options projectFolder pre post :
  child_spawn w command options projectFolder = (pre ++ Close None :: post)%list ->
  forallb is_data pre = true ->
  outcome (runCommand w command options projectFolder) = Ret (stdout_of pre).
Proof.
  intros Hrun Hpre.
  rewrite runCommand_outcome, Hrun, feed_data by assumption.
  reflexivity.
Qed.

(** C4.  In the sub-process variant, a run of the external process that
    closes with exit code 0 or 1 makes [runCommand] resolve with the
    captured standard output; a run that closes with any other exit code,
    or that fails to spawn, makes it reject; and that rejection is caught
    by [getFullESLintConfig], which returns [null]. *)
Theorem exit_code_policy :
  forall (w : World) (command : string) (options : list string)
         (projectFolder : string) (pre post : list ChildEvent) (fin : ChildEvent),
    child_spawn w command options projectFolder = (pre ++ fin :: post)%list ->
    forallb is_data pre = true ->
    (exit_ok fin ->
     outcome (runCommand w command options projectFolder) = Ret (stdout_of pre)) /\
    (exit_failure fin ->
     outcome (runCommand w command options projectFolder) = Throw (rejection fin) /\
     forall filePath,
       command = "npx" ->
       options = ["eslint"; "--print-config"; filePath] ->
       outcome (getFullESLintConfig w projectFolder filePath) = Ret VNull).
Proof.
  intros w command options projectFolder pre post fin Hrun Hpre.
  destruct (SubProcessFacts.runCommand_settled w _ _ _ _ _ _ Hrun Hpre)
    as [Hok Hbad].
  split; [exact Hok |].
  intros Hfail. split; [exact (Hbad Hfail) |].
  intros filePath -> ->.
  unfold getFullESLintConfig.
  rewrite (outcome_try_throw _ _ (rejection fin)); [reflexivity |].
  apply outcome_bind_throw, Hbad, Hfail.
Qed.

Lemma exit_code_policy_witness :
  outcome (runCommand Cases.exit1_world "npx"
             ["eslint"; "--print-config"; "/ws/.eslintrc"] "/ws") = Ret "{}" /\
  outcome (getFullESLintConfig Cases.exit2_world "/ws" "/ws/.eslintrc") = Ret VNull.
Proof.
  split.
  - apply (proj1 (exit_code_policy Cases.exit1_world "npx"
                    ["eslint"; "--print-config"; "/ws/.eslintrc"] "/ws"
                    [StdoutData "{"; StderrData "1 problem"; StdoutData "}"] []
                    (Close (Some 1%Z)) eq_refl eq_refl)).
    right; reflexivity.
  - apply (proj2 (exit_code_policy Cases.exit2_world "npx"
                    ["eslint"; "--print-config"; "/ws/.eslintrc"] "/ws"
                    [StdoutData Cases.printed_config; StderrData "Oops"] []
                    (Close (Some 2%Z)) eq_refl eq_refl)).
    + left. exists 2%Z. repeat split; discriminate.
    + reflexivity.
    + reflexivity.
Defined.

End C4.

(* ===================================================================== *)
(** * Rule files *)
(* ===================================================================== *)

Module RuleFileFacts.

Import JS Sys Spec Instructions MonadFacts.

Lemma str_truthy_true (s : string) : s <> "" -> str_truthy s = true.
Proof. destruct s; [congruence | reflexivity]. Qed.

Lemma str_truthy_false (s : string) : str_truthy s = false -> s = "".
Proof. destruct s; [reflexivity | discriminate]. Qed.


Section WithWorld.

Variable w : World.

Lemma safeReadFile_absent (file cwd : string) :
  absent w cwd file ->
  safeReadFile w file cwd = ([EvExists (path_join w cwd file)], Ret "").
Proof.
  unfold absent, safeReadFile, fileExistsAtPath. simpl.
  intros ->. reflexivity.
Qed.

Lemma safeReadFile_regular (file cwd content : string) :
  fs_exists w (path_join w cwd file) = true ->
  fs_isDirectory w (path_join w cwd file) = false ->
  fs_readFile w (path_join w cwd file) = inr content ->
  outcome (safeReadFile w file cwd)
  = Ret (if str_truthy (trim content)
         then file_header file (path_posix_join1 w cwd) ++ trim content
         else "").
Proof.
  unfold safeReadFile, fileExistsAtPath, isDirectory, readFile. simpl.
  intros -> -> ->. simpl.
  destruct (str_truthy (trim content)); reflexivity.
Qed.

Lemma safeReadFile_read_error (file cwd : string) (err : error) :
  fs_exists w (path_join w cwd file) = true ->
  fs_isDirectory w (path_join w cwd file) = false ->
  fs_readFile w (path_join w cwd file) = inl err ->
  outcome (safeReadFile w file cwd)
  = if swallowed err then Ret "" else Throw err.
Proof.
  unfold safeReadFile, fileExistsAtPath, isDirectory, readFile. simpl.
  intros -> -> ->. simpl.
  destruct (swallowed err); reflexivity.
Qed.

(** What a directory contributes: nothing, as soon as anything in it
    fails. *)
Lemma safeReadFile_directory (file cwd : string) :
  fs_exists w (path_join w cwd file) = true ->
  fs_isDirectory w (path_join w cwd file) = true ->
  outcome (safeReadFile w file cwd)
  = match outcome (readRuleDirectory w file cwd (path_join w cwd file)) with
    | Throw _ => Ret ""
    | other => other
    end.
Proof.
  unfold safeReadFile, fileExistsAtPath, isDirectory. simpl.
  intros -> ->. simpl.
  destruct (readRuleDirectory w file cwd (path_join w cwd file)) as [t [s | e |]];
    reflexivity.
Qed.


Lemma safeReadFile_blank (file cwd : string) :
  blank w cwd file -> outcome (safeReadFile w file cwd) = Ret "".
Proof.
  intros [Habs | (Hex & Hdir & content & Hrd & Htrim)].
  - now rewrite safeReadFile_absent.
  - rewrite (safeReadFile_regular _ _ content), Htrim by assumption.
    reflexivity.
Qed.

(** The loop of [loadRuleFiles] over sources that all contribute
    nothing. *)
Lemma loadRuleFilesFrom_blank (files : list string) (cwd acc : string) :
  Forall (blank w cwd) files ->
  outcome (loadRuleFilesFrom w files cwd acc) = Ret acc.
Proof.
  intros Hall. revert acc.
  induction Hall as [| file files Hb Hall IH]; intros acc; simpl.
  - reflexivity.
  - rewrite (outcome_bind_ret _ _ "" (safeReadFile_blank _ _ Hb)). simpl.
    apply IH.
Qed.

(** Nothing in the discovery of rule files stays pending. *)
Lemma promise_all_settles {A} (l : list (M A)) :
  Forall (fun m => outcome m <> Pending) l ->
  outcome (promise_all l) <> Pending.
Proof.
  induction 1 as [| [t o] l Hm Hall IH]; simpl; [discriminate |].
  destruct (promise_all l) as [t' os]; simpl in *.
  destruct o as [a | e |]; [| discriminate | congruence].
  destruct os as [l' | e |]; [discriminate | discriminate | congruence].
Qed.

Lemma readRuleDirectory_settles (file cwd p : string) :
  outcome (readRuleDirectory w file cwd p) <> Pending.
Proof.
  unfold readRuleDirectory, readdir.
  destruct (fs_readdir w p) as [e | entries]; simpl; [discriminate |].
  set (jobs := map (readRuleFile w p) _).
  assert (Hjobs : outcome (promise_all jobs) <> Pending).
  { apply promise_all_settles. subst jobs.
    apply Forall_forall. intros m Hm.
    apply in_map_iff in Hm as (path & <- & _).
    unfold readRuleFile, readFile.
    destruct (fs_readFile w (path_resolve w p path)); discriminate. }
  destruct (promise_all jobs) as [t [contents | e |]]; simpl in *;
    try discriminate.
  congruence.
Qed.



End WithWorld.

End RuleFileFacts.

(* ===================================================================== *)
(** * The instruction document *)
(* ===================================================================== *)

Module AssemblyFacts.

Import JS Sys Spec Instructions MonadFacts RuleFileFacts.

Section WithWorld.

Variable w : World.

(** The rule file of the mode, when it contributes nothing. *)
Lemma mode_rule_blank (cwd mode : string) :
  blank w cwd (modeRuleFile mode) ->
  outcome (if str_truthy mode then safeReadFile w (modeRuleFile mode) cwd
           else ret "") = Ret "".
Proof.
  intros Hb. destruct (str_truthy mode); [| reflexivity].
  now apply safeReadFile_blank.
Qed.

Lemma loadRuleFiles_blank (cwd : string) :
  Forall (blank w cwd) ruleFiles -> outcome (loadRuleFiles w cwd) = Ret "".
Proof. apply loadRuleFilesFrom_blank. Qed.

Lemma trimmed_text_blank (s : string) : trim s = "" -> trimmed_text (VStr s) = None.
Proof. unfold trimmed_text. intros ->. reflexivity. Qed.

Lemma trimmed_text_some (s : string) :
  trim s <> "" -> trimmed_text (VStr s) = Some (trim s).
Proof.
  unfold trimmed_text. intros H. now rewrite str_truthy_true.
Qed.

End WithWorld.

(** Runs [addCustomInstructions] up to its two reads of rule files. *)
Ltac run_reads Hmode Hgeneric :=
  unfold addCustomInstructions;
  rewrite (outcome_bind_ret _ _ _ Hmode); cbv beta zeta;
  rewrite (outcome_bind_ret _ _ _ Hgeneric); cbv beta zeta.

End AssemblyFacts.

Module C5.

Import JS Sys Spec Instructions MonadFacts RuleFileFacts AssemblyFacts.

(** C5.  [addCustomInstructions] called without a language option, with
    global and mode instructions that are empty or white space only,
    with no rule file on disk and without ignore instructions returns the
    empty string: no banner, no delimiter, no white space. *)
Theorem nothing_in_nothing_out :
  forall (w : World) (modeCustomInstructions globalCustomInstructions : string)
         (cwd mode : string) (options : Options),
    opt_truthy (language options) = false ->
    opt_truthy (rooIgnoreInstructions options) = false ->
    trim globalCustomInstructions = "" ->
    trim modeCustomInstructions = "" ->
    Forall (absent w cwd) ruleFiles ->
    absent w cwd (modeRuleFile mode) ->
    outcome (addCustomInstructions w (VStr modeCustomInstructions)
               (VStr globalCustomInstructions) cwd mode options) = Ret "".
Proof.
  intros w m g cwd mode [lang ign] Hlang Hign Hg Hm Hfiles Hmode.
  simpl in Hlang, Hign.
  assert (Hb : Forall (blank w cwd) ruleFiles).
  { eapply Forall_impl; [| exact Hfiles]. intros f Hf. now left. }
  run_reads (mode_rule_blank w cwd mode (or_introl Hmode))
            (loadRuleFiles_blank w cwd Hb).
  rewrite (trimmed_text_blank g Hg), (trimmed_text_blank m Hm). simpl.
  destruct lang as [l |]; simpl in *; rewrite ?Hlang;
    (destruct ign as [i |]; simpl in *; rewrite ?Hign; reflexivity).
Qed.

Lemma nothing_in_nothing_out_witness :
  outcome (addCustomInstructions Cases.bare_world (VStr ("  " ++ LF)) (VStr "")
             "/ws" "code" no_options) = Ret "".
Proof.
  apply nothing_in_nothing_out; try reflexivity.
  repeat constructor.
Defined.

End C5.

Module C6.

Import JS Sys Spec Instructions MonadFacts RuleFileFacts AssemblyFacts.

(** C6.  [addCustomInstructions] called with the language option [fr]
    and nothing else returns a document of exactly one section: the line
    [====] and the line [USER'S CUSTOM INSTRUCTIONS] of the banner, its
    sentence, and then the language preference, which names between
    double quotes the display name the [LANGUAGES] table has for [fr],
    or the raw code [fr] when the table has none, followed by the code
    in parentheses. *)
Theorem language_only :
  forall (w : World) (modeCustomInstructions globalCustomInstructions : string)
         (cwd mode : string) (name : string),
    trim globalCustomInstructions = "" ->
    trim modeCustomInstructions = "" ->
    Forall (absent w cwd) ruleFiles ->
    absent w cwd (modeRuleFile mode) ->
    (LANGUAGES w "fr" = Some name /\ name <> "") \/
    (name = "fr" /\ (LANGUAGES w "fr" = None \/ LANGUAGES w "fr" = Some "")) ->
    outcome (addCustomInstructions w (VStr modeCustomInstructions)
               (VStr globalCustomInstructions) cwd mode (mkOptions (Some "fr") None))
    = Ret (LF ++ "====" ++ LF ++ LF ++
           "USER'S CUSTOM INSTRUCTIONS" ++ LF ++ LF ++
           "The following additional instructions are provided by the user, and should be followed to the best of your ability without interfering with the TOOL USE guidelines."
           ++ LF ++ LF ++
           "Language Preference:" ++ LF ++
           "You should always speak and think in the " ++
           String (ascii_of_nat 34) "" ++ name ++ String (ascii_of_nat 34) "" ++
           " (fr) language unless the user gives you instructions below to do otherwise.").
Proof.
  intros w m g cwd mode name Hg Hm Hfiles Hmode Hname.
  assert (Hb : Forall (blank w cwd) ruleFiles).
  { eapply Forall_impl; [| exact Hfiles]. intros f Hf. now left. }
  run_reads (mode_rule_blank w cwd mode (or_introl Hmode))
            (loadRuleFiles_blank w cwd Hb).
  rewrite (trimmed_text_blank g Hg), (trimmed_text_blank m Hm).
  cbn [language rooIgnoreInstructions str_truthy].
  destruct Hname as [[Hl Hne] | [-> [Hl | Hl]]]; rewrite Hl;
    rewrite ?(str_truthy_true name Hne); reflexivity.
Qed.

Lemma language_only_witness :
  outcome (addCustomInstructions Cases.bare_world (VStr "") (VStr "") "/ws" ""
             (mkOptions (Some "fr") None))
  = Ret (LF ++ "====" ++ LF ++ LF ++
         "USER'S CUSTOM INSTRUCTIONS" ++ LF ++ LF ++
         "The following additional instructions are provided by the user, and should be followed to the best of your ability without interfering with the TOOL USE guidelines."
         ++ LF ++ LF ++
         "Language Preference:" ++ LF ++
         "You should always speak and think in the " ++
         String (ascii_of_nat 34) "" ++
         ("Fran" ++ String (ascii_of_nat 231) "ais") ++
         String (ascii_of_nat 34) "" ++
         " (fr) language unless the user gives you instructions below to do otherwise.") /\
  outcome (addCustomInstructions MoreCases.no_french_world (VStr "") (VStr "") "/ws" ""
             (mkOptions (Some "fr") None))
  = Ret (LF ++ "====" ++ LF ++ LF ++
         "USER'S CUSTOM INSTRUCTIONS" ++ LF ++ LF ++
         "The following additional instructions are provided by the user, and should be followed to the best of your ability without interfering with the TOOL USE guidelines."
         ++ LF ++ LF ++
         "Language Preference:" ++ LF ++
         "You should always speak and think in the " ++
         String (ascii_of_nat 34) "" ++ "fr" ++ String (ascii_of_nat 34) "" ++
         " (fr) language unless the user gives you instructions below to do otherwise.").
Proof.
  split.
  - apply (language_only Cases.bare_world "" "" "/ws" ""
             ("Fran" ++ String (ascii_of_nat 231) "ais")
             eq_refl eq_refl
             (Forall_cons _ eq_refl
                (Forall_cons _ eq_refl (Forall_cons _ eq_refl (Forall_nil _))))
             eq_refl).
    left. split; [reflexivity | discriminate].
  - apply (language_only MoreCases.no_french_world "" "" "/ws" "" "fr"
             eq_refl eq_refl
             (Forall_cons _ eq_refl
                (Forall_cons _ eq_refl (Forall_cons _ eq_refl (Forall_nil _))))
             eq_refl).
    right. split; [reflexivity | left; reflexivity].
Defined.

End C6.

Module C7.

Import JS Sys Spec Instructions MonadFacts RuleFileFacts AssemblyFacts.

(** C7.  When the global instructions, the mode instructions, the rule
    file of the mode, the ignore instructions and the generic rule files
    are all non-empty, the document is the banner followed by, in this
    order and joined by blank lines: the language preference (when a
    language is supplied), the global instructions, the mode
    instructions, and one Rules block holding, again in this order and
    joined by blank lines, the content of the mode's rule file, the
    ignore instructions and the generic rule files. *)
Theorem section_order :
  forall (w : World) (modeCustomInstructions globalCustomInstructions : string)
         (cwd mode : string) (lang : option string) (ign : string)
         (modeRuleContent genericRuleContent : string),
    mode <> "" ->
    trim globalCustomInstructions <> "" ->
    trim modeCustomInstructions <> "" ->
    ign <> "" ->
    outcome (safeReadFile w (modeRuleFile mode) cwd) = Ret modeRuleContent ->
    trim modeRuleContent <> "" ->
    outcome (loadRuleFiles w cwd) = Ret genericRuleContent ->
    trim genericRuleContent <> "" ->
    outcome (addCustomInstructions w (VStr modeCustomInstructions)
               (VStr globalCustomInstructions) cwd mode (mkOptions lang (Some ign)))
    = Ret (banner ++
           join (LF ++ LF)
             (language_part w lang ++
              ["Global Instructions:" ++ LF ++ trim globalCustomInstructions;
               "Mode-specific Instructions:" ++ LF ++ trim modeCustomInstructions;
               "Rules:" ++ LF ++ LF ++
               join (LF ++ LF)
                 ["# Rules from " ++ modeRuleFile mode ++ ":" ++ LF ++ modeRuleContent;
                  ign;
                  trim genericRuleContent]])).
Proof.
  intros w m g cwd mode lang ign mrc grc Hmode Hg Hm Hign Hmrc Hmrct Hgrc Hgrct.
  assert (Hread : outcome (if str_truthy mode
                           then safeReadFile w (modeRuleFile mode) cwd
                           else ret "") = Ret mrc).
  { now rewrite (str_truthy_true mode Hmode). }
  run_reads Hread Hgrc.
  rewrite (trimmed_text_some g Hg), (trimmed_text_some m Hm).
  assert (Hmrc' : str_truthy mrc = true).
  { apply str_truthy_true. intros ->. now apply Hmrct. }
  assert (Hgrc' : str_truthy grc = true).
  { apply str_truthy_true. intros ->. now apply Hgrct. }
  rewrite Hmrc', Hgrc', (str_truthy_true _ Hmrct), (str_truthy_true _ Hgrct).
  cbn [language rooIgnoreInstructions andb].
  rewrite (str_truthy_true ign Hign).
  unfold language_part, display_name, push.
  destruct lang as [code |]; [destruct (str_truthy code) |]; reflexivity.
Qed.

Lemma section_order_witness :
  outcome (addCustomInstructions Cases.rules_world (VStr "Be brief.")
             (VStr (" Be kind." ++ LF)) "/ws" "code"
             (mkOptions (Some "fr") (Some "# .rooignore")))
  = Ret (banner ++
         language_section ("Fran" ++ String (ascii_of_nat 231) "ais") "fr" ++ LF ++ LF ++
         "Global Instructions:" ++ LF ++ "Be kind." ++ LF ++ LF ++
         "Mode-specific Instructions:" ++ LF ++ "Be brief." ++ LF ++ LF ++
         "Rules:" ++ LF ++ LF ++
         "# Rules from .clinerules-code:" ++ LF ++
         file_header ".clinerules-code" "/ws" ++ "Prefer small functions." ++ LF ++ LF ++
         "# .rooignore" ++ LF ++ LF ++
         file_header ".clinerules" "/ws" ++ "Write tests first.").
Proof.
  apply (section_order Cases.rules_world "Be brief." (" Be kind." ++ LF) "/ws" "code"
           (Some "fr") "# .rooignore"
           (file_header ".clinerules-code" "/ws" ++ "Prefer small functions.")
           (LF ++ file_header ".clinerules" "/ws" ++ "Write tests first." ++ LF));
    try reflexivity; discriminate.
Defined.

End C7.

Module C8.

Import JS Sys Spec Instructions MonadFacts RuleFileFacts AssemblyFacts.

(** The reads of [Promise.all] when every file can be read. *)
Lemma promise_all_reads (w : World) (dir : string) (names : list string) :
  (forall name, In name names ->
     exists content, fs_readFile w (path_resolve w dir name) = inr content) ->
  outcome (promise_all (map (readRuleFile w dir) names))
  = Ret (map (fun name =>
                path_resolve w dir name ++ ":" ++ LF ++
                match fs_readFile w (path_resolve w dir name) with
                | inr content => trim content
                | inl _ => ""
                end) names).
Proof.
  induction names as [| name names IH]; intros Hall; simpl; [reflexivity |].
  destruct (Hall name (or_introl eq_refl)) as (content & Hc).
  assert (IH' := IH (fun n Hn => Hall n (or_intror Hn))).
  unfold readRuleFile at 1, readFile. rewrite Hc. simpl.
  destruct (promise_all (map (readRuleFile w dir) names)) as [t o].
  simpl in *. rewrite IH'. reflexivity.
Qed.

(** What a rule directory contributes when all goes well: every entry
    that is a file is looked up under the directory itself by its own
    name, wherever the recursive listing found it. *)
Lemma safeReadFile_directory_ok (w : World) (file cwd : string)
    (entries : list Dirent) :
  fs_exists w (path_join w cwd file) = true ->
  fs_isDirectory w (path_join w cwd file) = true ->
  fs_readdir w (path_join w cwd file) = inr entries ->
  (forall entry, In entry entries -> d_isFile entry = true ->
     exists content,
       fs_readFile w (path_resolve w (path_join w cwd file)
                        (path_resolve w (path_join w cwd file) (d_name entry)))
       = inr content) ->
  outcome (safeReadFile w file cwd)
  = Ret (directory_header file (path_posix_join1 w cwd) ++
         join (LF ++ LF)
           (map (rule_file_block w (path_join w cwd file))
                (filter d_isFile entries))).
Proof.
  intros Hex Hdir Hls Hreads.
  rewrite safeReadFile_directory by assumption.
  unfold readRuleDirectory, readdir. rewrite Hls. simpl.
  set (dir := path_join w cwd file) in *.
  assert (Hall : outcome (promise_all
                   (map (readRuleFile w dir)
                      (map (fun f => path_resolve w dir (d_name f))
                         (filter d_isFile entries))))
                 = Ret (map (rule_file_block w dir) (filter d_isFile entries))).
  { rewrite promise_all_reads.
    - rewrite map_map. reflexivity.
    - intros name Hin. apply in_map_iff in Hin as (entry & <- & Hentry).
      apply filter_In in Hentry as [Hentry Hfile]. now apply Hreads. }
  destruct (promise_all _) as [t o]. simpl in *. rewrite Hall. reflexivity.
Qed.

(** The case of the specification: a directory with a.md and b.md. *)
Example flat_directory_block :
  outcome (loadRuleFiles Cases.flat_directory_world "/ws")
  = Ret (LF ++ directory_header ".clinerules" "/ws" ++
         "/ws/.clinerules/a.md:" ++ LF ++ "A" ++ LF ++ LF ++
         "/ws/.clinerules/b.md:" ++ LF ++ "B" ++ LF).
Proof. reflexivity. Qed.

(** C8, at a directory with a file in a sub-directory.  The recursive
    listing names c.md of .clinerules/sub by its own name; the code
    resolves that name against .clinerules itself, the read of
    /ws/.clinerules/c.md fails, and the whole directory, a.md included,
    contributes nothing. *)
Theorem nested_rule_file_is_lost :
  fs_readFile Cases.nested_directory_world "/ws/.clinerules/sub/c.md" = inr "C" /\
  trace (safeReadFile Cases.nested_directory_world ".clinerules" "/ws")
  = [EvExists "/ws/.clinerules"; EvIsDirectory "/ws/.clinerules";
     EvReaddir "/ws/.clinerules";
     EvReadFile "/ws/.clinerules/a.md"; EvReadFile "/ws/.clinerules/c.md";
     EvConsole "Failed to read .clinerules directory at /ws/.clinerules"] /\
  outcome (safeReadFile Cases.nested_directory_world ".clinerules" "/ws") = Ret "" /\
  outcome (loadRuleFiles Cases.nested_directory_world "/ws") = Ret "".
Proof. repeat split. Qed.

End C8.

Module C9.

Import JS Sys Spec Instructions MonadFacts RuleFileFacts AssemblyFacts.




End C9.

Module C10.

Import JS Sys Spec Instructions MonadFacts RuleFileFacts AssemblyFacts.

(** C10.  The ignore instructions are only tested for truthiness and
    included as they are: when they are a non-empty string, white space
    only or not, and every other source contributes nothing (global and
    mode instructions empty after trimming, rule files absent or white
    space only), the document is the banner followed by a Rules section
    that holds the ignore instructions untrimmed. *)
Theorem ignore_instructions_untrimmed :
  forall (w : World) (modeCustomInstructions globalCustomInstructions : string)
         (cwd mode : string) (lang : option string) (ign : string),
    opt_truthy lang = false ->
    ign <> "" ->
    trim globalCustomInstructions = "" ->
    trim modeCustomInstructions = "" ->
    Forall (blank w cwd) ruleFiles ->
    blank w cwd (modeRuleFile mode) ->
    outcome (addCustomInstructions w (VStr modeCustomInstructions)
               (VStr globalCustomInstructions) cwd mode (mkOptions lang (Some ign)))
    = Ret (banner ++ "Rules:" ++ LF ++ LF ++ ign).
Proof.
  intros w m g cwd mode lang ign Hlang Hign Hg Hm Hfiles Hmode.
  run_reads (mode_rule_blank w cwd mode Hmode) (loadRuleFiles_blank w cwd Hfiles).
  rewrite (trimmed_text_blank g Hg), (trimmed_text_blank m Hm). simpl.
  rewrite (str_truthy_true ign Hign).
  destruct lang as [l |]; simpl in *; rewrite ?Hlang; reflexivity.
Qed.

Lemma ignore_instructions_untrimmed_witness :
  outcome (addCustomInstructions Cases.bare_world (VStr " ") (VStr "") "/ws" "code"
             (mkOptions None (Some "  ")))
  = Ret (banner ++ "Rules:" ++ LF ++ LF ++ "  ").
Proof.
  apply ignore_instructions_untrimmed; try reflexivity.
  - discriminate.
  - repeat constructor.
  - left. reflexivity.
Defined.

End C10.

(* ===================================================================== *)
(** * Trimming *)
(* ===================================================================== *)

Module TrimFacts.

Import JS.

Lemma trimStart_head (c : ascii) (r : string) :
  is_ws c = false -> trimStart (String c r) = String c r.
Proof. simpl. intros ->. reflexivity. Qed.

Lemma trimEnd_head (c : ascii) (r : string) :
  is_ws c = false -> exists t, trimEnd (String c r) = String c t.
Proof.
  intros Hc. simpl. destruct (trimEnd r); [rewrite Hc |]; eauto.
Qed.

(** A text that starts with something else than white space is not
    blank. *)
Lemma trim_head (c : ascii) (r : string) :
  is_ws c = false -> exists t, trim (String c r) = String c t.
Proof.
  intros Hc. unfold trim. rewrite trimStart_head by exact Hc.
  now apply trimEnd_head.
Qed.

Lemma trimStart_shape (s : string) :
  trimStart s = "" \/ exists c r, trimStart s = String c r /\ is_ws c = false.
Proof.
  induction s as [| c s IH]; simpl; [now left |].
  destruct (is_ws c) eqn:Hc; [exact IH | right; eauto].
Qed.

Lemma trimEnd_idempotent (s : string) : trimEnd (trimEnd s) = trimEnd s.
Proof.
  induction s as [| c s IH]; simpl; [reflexivity |].
  destruct (trimEnd s) as [| d t] eqn:Hs.
  - destruct (is_ws c) eqn:Hc; simpl; [reflexivity | now rewrite Hc].
  - change (trimEnd (String c (String d t))) with
      (match trimEnd (String d t) with
       | "" => if is_ws c then "" else String c ""
       | String _ _ as u => String c u
       end).
    rewrite IH. reflexivity.
Qed.

Lemma trim_idempotent (s : string) : trim (trim s) = trim s.
Proof.
  unfold trim.
  destruct (trimStart_shape s) as [-> | (c & r & -> & Hc)]; [reflexivity |].
  destruct (trimEnd_head c r Hc) as (t & Ht).
  rewrite Ht, trimStart_head by exact Hc.
  rewrite <- Ht. apply trimEnd_idempotent.
Qed.

Lemma trimEnd_app (a b : string) :
  trimEnd b <> "" -> trimEnd (a ++ b) = a ++ trimEnd b.
Proof.
  intros Hb. induction a as [| c a IH]; simpl; [reflexivity |].
  rewrite IH. destruct (a ++ trimEnd b) eqn:E; [| reflexivity].
  destruct a; simpl in E; [contradiction | discriminate].
Qed.

End TrimFacts.

(* ===================================================================== *)
(** * Further properties of the rule files *)
(* ===================================================================== *)

Module RuleFileShape.

Import JS Sys Spec Shape Instructions MonadFacts RuleFileFacts AssemblyFacts.

Lemma header_not_blank (file rest : string) :
  trim ("# " ++ file ++ rest) <> "".
Proof.
  destruct (TrimFacts.trim_head "#"%char (" " ++ file ++ rest) eq_refl) as (t & Ht).
  change ("# " ++ file ++ rest) with (String "#"%char (" " ++ file ++ rest)).
  rewrite Ht. discriminate.
Qed.

Lemma readRuleDirectory_shape (w : World) (file cwd p : string) :
  (exists body,
     outcome (readRuleDirectory w file cwd p)
     = Ret (directory_header file (path_posix_join1 w cwd) ++ body)) \/
  (exists e, outcome (readRuleDirectory w file cwd p) = Throw e).
Proof.
  pose proof (readRuleDirectory_settles w file cwd p) as Hs.
  unfold readRuleDirectory, readdir in *.
  destruct (fs_readdir w p) as [e | entries]; simpl in *; [right; eauto |].
  destruct (promise_all _) as [t [contents | e |]]; simpl in *.
  - left. eauto.
  - right. eauto.
  - congruence.
Qed.

Lemma safeReadFile_returns_or_throws (w : World) (file cwd : string) :
  (exists s, outcome (safeReadFile w file cwd) = Ret s) \/
  (exists e, outcome (safeReadFile w file cwd) = Throw e /\ swallowed e = false).
Proof.
  destruct (fs_exists w (path_join w cwd file)) eqn:Hex.
  2:{ left. exists "". now rewrite safeReadFile_absent. }
  destruct (fs_isDirectory w (path_join w cwd file)) eqn:Hdir.
  - left. rewrite safeReadFile_directory by assumption.
    destruct (readRuleDirectory_shape w file cwd (path_join w cwd file))
      as [(body & ->) | (e & ->)]; eauto.
  - destruct (fs_readFile w (path_join w cwd file)) as [e | c] eqn:Hrd.
    + rewrite (safeReadFile_read_error w _ _ e) by assumption.
      destruct (swallowed e) eqn:Hs; eauto.
    + left. rewrite (safeReadFile_regular w _ _ c) by assumption. eauto.
Qed.

(** One turn of the loop of [loadRuleFiles]. *)
Lemma loadRuleFilesFrom_step (w : World) (f : string) (rest : list string)
    (cwd acc c : string) :
  outcome (safeReadFile w f cwd) = Ret c ->
  outcome (loadRuleFilesFrom w (f :: rest) cwd acc)
  = outcome (loadRuleFilesFrom w rest cwd (acc ++ wrap c)).
Proof.
  intros Hc. simpl. rewrite (outcome_bind_ret _ _ _ Hc). unfold wrap.
  destruct (str_truthy c); [reflexivity |].
  now rewrite StringFacts.append_nil_r.
Qed.

(** X1.  [safeReadFile] either returns the empty string, or returns a
    block that starts with the line [# file] and is not blank, or throws
    the error of reading a regular file, and then one whose code is
    neither ENOENT nor EISDIR. *)
Theorem safeReadFile_classified :
  forall (w : World) (file cwd : string),
    (exists s,
       outcome (safeReadFile w file cwd) = Ret s /\
       (s = "" \/ ((exists rest, s = "# " ++ file ++ rest) /\ trim s <> ""))) \/
    (exists e,
       outcome (safeReadFile w file cwd) = Throw e /\
       swallowed e = false /\
       fs_isDirectory w (path_join w cwd file) = false /\
       fs_readFile w (path_join w cwd file) = inl e).
Proof.
  intros w file cwd.
  destruct (fs_exists w (path_join w cwd file)) eqn:Hex.
  2:{ left. exists "". rewrite safeReadFile_absent by exact Hex. auto. }
  destruct (fs_isDirectory w (path_join w cwd file)) eqn:Hdir.
  - left. rewrite safeReadFile_directory by assumption.
    destruct (readRuleDirectory_shape w file cwd (path_join w cwd file))
      as [(body & ->) | (e & ->)]; [| exists ""; auto].
    eexists. split; [reflexivity |]. right.
    unfold directory_header.
    rewrite <- !StringFacts.append_assoc. simpl.
    split; [eexists; reflexivity |].
    apply (header_not_blank file).
  - destruct (fs_readFile w (path_join w cwd file)) as [e | c] eqn:Hrd.
    + rewrite (safeReadFile_read_error w _ _ e) by assumption.
      destruct (swallowed e) eqn:Hs; [left; exists ""; auto |].
      right. exists e. auto.
    + left. rewrite (safeReadFile_regular w _ _ c) by assumption.
      eexists. split; [reflexivity |].
      destruct (str_truthy (trim c)); [right | now left].
      unfold file_header.
      rewrite <- !StringFacts.append_assoc. simpl.
      split; [eexists; reflexivity |].
      apply (header_not_blank file).
Qed.

(** X2.  [loadRuleFiles] puts what .clinerules, .cursorrules and
    .windsurfrules contribute in this order, each non-empty contribution
    between two line feeds, and leaves an empty one out. *)
Theorem loadRuleFiles_in_order :
  forall (w : World) (cwd c1 c2 c3 : string),
    outcome (safeReadFile w ".clinerules" cwd) = Ret c1 ->
    outcome (safeReadFile w ".cursorrules" cwd) = Ret c2 ->
    outcome (safeReadFile w ".windsurfrules" cwd) = Ret c3 ->
    outcome (loadRuleFiles w cwd) = Ret (wrap c1 ++ wrap c2 ++ wrap c3).
Proof.
  intros w cwd c1 c2 c3 H1 H2 H3.
  unfold loadRuleFiles, ruleFiles.
  rewrite (loadRuleFilesFrom_step w _ _ _ _ c1 H1),
    (loadRuleFilesFrom_step w _ _ _ _ c2 H2),
    (loadRuleFilesFrom_step w _ _ _ _ c3 H3).
  simpl. now rewrite <- StringFacts.append_assoc.
Qed.

Lemma loadRuleFiles_in_order_witness :
  outcome (loadRuleFiles two_files_world "/ws")
  = Ret (LF ++ file_header ".clinerules" "/ws" ++ "One." ++ LF ++
         LF ++ file_header ".windsurfrules" "/ws" ++ "Three." ++ LF).
Proof.
  apply (loadRuleFiles_in_order two_files_world "/ws"
           (file_header ".clinerules" "/ws" ++ "One.") ""
           (file_header ".windsurfrules" "/ws" ++ "Three."));
    reflexivity.
Defined.

Lemma loadRuleFilesFrom_first_throw (w : World) (cwd : string)
    (l1 l2 : list string) (f acc : string) (e : error) :
  Forall (fun g => exists c, outcome (safeReadFile w g cwd) = Ret c) l1 ->
  outcome (safeReadFile w f cwd) = Throw e ->
  outcome (loadRuleFilesFrom w (l1 ++ f :: l2) cwd acc) = Throw e /\
  forall ev, In ev (trace (loadRuleFilesFrom w (l1 ++ f :: l2) cwd acc)) ->
    exists g, In g (l1 ++ [f]) /\ In ev (trace (safeReadFile w g cwd)).
Proof.
  intros Hl1 Hf. revert acc.
  induction Hl1 as [| g l1 (c & Hg) Hl1 IH]; intros acc; simpl.
  - split; [apply outcome_bind_throw, Hf |].
    rewrite trace_bind_stop by (intros a Ha; congruence).
    intros ev Hev. exists f. auto.
  - rewrite (outcome_bind_ret _ _ _ Hg), (trace_bind_ret _ _ _ Hg).
    assert (Hnext : forall acc',
              outcome (loadRuleFilesFrom w (l1 ++ f :: l2) cwd acc') = Throw e /\
              forall ev, In ev (trace (loadRuleFilesFrom w (l1 ++ f :: l2) cwd acc')) ->
                exists g', In g' (g :: l1 ++ [f]) /\
                           In ev (trace (safeReadFile w g' cwd))).
    { intros acc'. destruct (IH acc') as [Ho Ht]. split; [exact Ho |].
      intros ev Hev. destruct (Ht ev Hev) as (g' & Hin & Hg').
      exists g'. split; [now right | exact Hg']. }
    destruct (str_truthy c);
      (split; [apply Hnext |]);
      intros ev Hev; apply in_app_or in Hev as [Hev | Hev];
      try (exists g; split; [now left | exact Hev]);
      eapply Hnext; exact Hev.
Qed.

(** X3.  The first rule file whose read throws ends [loadRuleFiles] with
    that very error, and the rule files after it are not touched: every
    event of the run belongs to the read of a file up to the failing
    one. *)
Theorem loadRuleFiles_stops_at_first_throw :
  forall (w : World) (cwd : string) (l1 l2 : list string) (f : string) (e : error),
    ruleFiles = (l1 ++ f :: l2)%list ->
    Forall (fun g => exists c, outcome (safeReadFile w g cwd) = Ret c) l1 ->
    outcome (safeReadFile w f cwd) = Throw e ->
    outcome (loadRuleFiles w cwd) = Throw e /\
    forall ev, In ev (trace (loadRuleFiles w cwd)) ->
      exists g, In g (l1 ++ [f]) /\ In ev (trace (safeReadFile w g cwd)).
Proof.
  intros w cwd l1 l2 f e Hfiles Hl1 Hf.
  unfold loadRuleFiles. rewrite Hfiles.
  now apply loadRuleFilesFrom_first_throw.
Qed.

Lemma loadRuleFiles_stops_at_first_throw_witness :
  outcome (loadRuleFiles Cases.locked_file_world "/ws") = Throw (errno "EACCES") /\
  ~ In (EvExists "/ws/.windsurfrules")
       (trace (loadRuleFiles Cases.locked_file_world "/ws")).
Proof.
  assert (Hfirst : Forall
            (fun g => exists c,
               outcome (safeReadFile Cases.locked_file_world g "/ws") = Ret c)
            [".clinerules"]).
  { constructor; [exists ""; reflexivity | constructor]. }
  destruct (loadRuleFiles_stops_at_first_throw Cases.locked_file_world "/ws"
              [".clinerules"] [".windsurfrules"] ".cursorrules" (errno "EACCES")
              eq_refl Hfirst eq_refl) as [Hthrow Htrace].
  split; [exact Hthrow |].
  intros Hin. destruct (Htrace _ Hin) as (g & [<- | [<- | []]] & Hg);
    simpl in Hg; intuition discriminate.
Defined.

End RuleFileShape.

(* ===================================================================== *)
(** * Further properties of the instruction document *)
(* ===================================================================== *)

Module DocumentShape.

Import JS Sys Spec Shape Instructions MonadFacts RuleFileFacts AssemblyFacts.

Lemma safeReadFile_empty_directory (w : World) (file cwd : string)
    (entries : list Dirent) :
  fs_exists w (path_join w cwd file) = true ->
  fs_isDirectory w (path_join w cwd file) = true ->
  fs_readdir w (path_join w cwd file) = inr entries ->
  filter d_isFile entries = [] ->
  outcome (safeReadFile w file cwd)
  = Ret (directory_header file (path_posix_join1 w cwd)).
Proof.
  intros Hex Hdir Hls Hnone.
  rewrite safeReadFile_directory by assumption.
  unfold readRuleDirectory, readdir, bind.
  rewrite Hls. cbv beta iota delta [of_sum].
  rewrite Hnone. simpl.
  now rewrite StringFacts.append_nil_r.
Qed.

(** The text a [.clinerules] directory is announced with. *)
Lemma trim_directory_block (shown : string) :
  trim (LF ++ directory_header ".clinerules" shown ++ LF)
  = "# .clinerules/" ++ LF ++ LF ++
    "The following is provided by a root-level .clinerules/ directory where the user has specified instructions for this working directory ("
    ++ shown ++ ")".
Proof.
  set (intro := "The following is provided by a root-level .clinerules/ directory where the user has specified instructions for this working directory (").
  assert (E : LF ++ directory_header ".clinerules" shown ++ LF
              = LF ++ ("# .clinerules/" ++ LF ++ LF ++ intro ++ shown)
                   ++ (")" ++ LF ++ LF ++ LF)).
  { unfold directory_header. simpl.
    rewrite <- !StringFacts.append_assoc. reflexivity. }
  rewrite E. unfold trim.
  change (trimStart (LF ++ ("# .clinerules/" ++ LF ++ LF ++ intro ++ shown)
                        ++ (")" ++ LF ++ LF ++ LF)))
    with (("# .clinerules/" ++ LF ++ LF ++ intro ++ shown) ++ (")" ++ LF ++ LF ++ LF)).
  rewrite TrimFacts.trimEnd_app by discriminate.
  change (trimEnd (")" ++ LF ++ LF ++ LF)) with ")".
  subst intro. simpl. rewrite <- ?StringFacts.append_assoc. reflexivity.
Qed.

(** X4.  A [.clinerules] directory without a single file in it still
    contributes: with every other source empty, the document is the
    banner and a Rules section that holds nothing but the line and the
    sentence announcing the directory. *)
Theorem empty_directory_is_announced :
  forall (w : World) (modeCustomInstructions globalCustomInstructions : string)
         (cwd mode : string) (entries : list Dirent),
    trim globalCustomInstructions = "" ->
    trim modeCustomInstructions = "" ->
    blank w cwd (modeRuleFile mode) ->
    blank w cwd ".cursorrules" ->
    blank w cwd ".windsurfrules" ->
    fs_exists w (path_join w cwd ".clinerules") = true ->
    fs_isDirectory w (path_join w cwd ".clinerules") = true ->
    fs_readdir w (path_join w cwd ".clinerules") = inr entries ->
    filter d_isFile entries = [] ->
    outcome (addCustomInstructions w (VStr modeCustomInstructions)
               (VStr globalCustomInstructions) cwd mode no_options)
    = Ret (banner ++ "Rules:" ++ LF ++ LF ++
           "# .clinerules/" ++ LF ++ LF ++
           "The following is provided by a root-level .clinerules/ directory where the user has specified instructions for this working directory ("
           ++ path_posix_join1 w cwd ++ ")").
Proof.
  intros w m g cwd mode entries Hg Hm Hmode Hcursor Hwind Hex Hdir Hls Hnone.
  assert (Hgen : outcome (loadRuleFiles w cwd)
                 = Ret (LF ++ directory_header ".clinerules" (path_posix_join1 w cwd) ++ LF)).
  { unfold loadRuleFiles, ruleFiles.
    rewrite (RuleFileShape.loadRuleFilesFrom_step w _ _ _ _ _
               (safeReadFile_empty_directory w _ _ entries Hex Hdir Hls Hnone)),
      (RuleFileShape.loadRuleFilesFrom_step w _ _ _ _ ""
         (safeReadFile_blank w _ _ Hcursor)),
      (RuleFileShape.loadRuleFilesFrom_step w _ _ _ _ ""
         (safeReadFile_blank w _ _ Hwind)).
    simpl. now rewrite !StringFacts.append_nil_r. }
  run_reads (mode_rule_blank w cwd mode Hmode) Hgen.
  rewrite (trimmed_text_blank g Hg), (trimmed_text_blank m Hm).
  rewrite trim_directory_block.
  reflexivity.
Qed.

Lemma empty_directory_is_announced_witness :
  outcome (addCustomInstructions empty_directory_world (VStr "") (VStr "")
             "/ws" "" no_options)
  = Ret (banner ++ "Rules:" ++ LF ++ LF ++
         "# .clinerules/" ++ LF ++ LF ++
         "The following is provided by a root-level .clinerules/ directory where the user has specified instructions for this working directory (/ws)").
Proof.
  apply (empty_directory_is_announced empty_directory_world "" "" "/ws" ""
           [mkDirent "drafts" "/ws/.clinerules" false]);
    try reflexivity; left; reflexivity.
Defined.

(** X5.  When [.clinerules] is a directory and every file the listing
    names can be read under the directory itself, [loadRuleFiles] returns,
    between two line feeds, the announcement of the directory followed by
    one block per listed file, in the order of the listing and joined by
    blank lines; each block is the path the file's name resolves to
    against the directory, a colon, and the trimmed content, also when
    that content is empty. *)
Theorem rule_directory_block :
  forall (w : World) (cwd : string) (entries : list Dirent),
    fs_exists w (path_join w cwd ".clinerules") = true ->
    fs_isDirectory w (path_join w cwd ".clinerules") = true ->
    fs_readdir w (path_join w cwd ".clinerules") = inr entries ->
    (forall entry, In entry entries -> d_isFile entry = true ->
       exists content,
         fs_readFile w (path_resolve w (path_join w cwd ".clinerules")
                          (path_resolve w (path_join w cwd ".clinerules")
                             (d_name entry)))
         = inr content) ->
    blank w cwd ".cursorrules" ->
    blank w cwd ".windsurfrules" ->
    outcome (loadRuleFiles w cwd)
    = Ret (LF ++ directory_header ".clinerules" (path_posix_join1 w cwd) ++
           join (LF ++ LF)
             (map (rule_file_block w (path_join w cwd ".clinerules"))
                  (filter d_isFile entries)) ++ LF).
Proof.
  intros w cwd entries Hex Hdir Hls Hreads Hcursor Hwind.
  unfold loadRuleFiles, ruleFiles.
  rewrite (RuleFileShape.loadRuleFilesFrom_step w _ _ _ _ _
             (C8.safeReadFile_directory_ok w ".clinerules" cwd entries
                Hex Hdir Hls Hreads)),
    (RuleFileShape.loadRuleFilesFrom_step w _ _ _ _ ""
       (safeReadFile_blank w _ _ Hcursor)),
    (RuleFileShape.loadRuleFilesFrom_step w _ _ _ _ ""
       (safeReadFile_blank w _ _ Hwind)).
  unfold wrap at 1.
  assert (Ht : str_truthy (directory_header ".clinerules" (path_posix_join1 w cwd) ++
                           join (LF ++ LF)
                             (map (rule_file_block w (path_join w cwd ".clinerules"))
                                (filter d_isFile entries))) = true) by reflexivity.
  rewrite Ht. simpl.
  rewrite !StringFacts.append_nil_r, <- !StringFacts.append_assoc. reflexivity.
Qed.

Lemma rule_directory_block_witness :
  outcome (loadRuleFiles Cases.flat_directory_world "/ws")
  = Ret (LF ++ directory_header ".clinerules" "/ws" ++
         "/ws/.clinerules/a.md:" ++ LF ++ "A" ++ LF ++ LF ++
         "/ws/.clinerules/b.md:" ++ LF ++ "B" ++ LF).
Proof.
  apply (rule_directory_block Cases.flat_directory_world "/ws"
           [mkDirent "a.md" "/ws/.clinerules" true;
            mkDirent "b.md" "/ws/.clinerules" true]);
    try reflexivity.
  - intros entry [<- | [<- | []]] _; eexists; reflexivity.
  - left. reflexivity.
  - left. reflexivity.
Defined.

Lemma safeReadFile_throw_origin (w : World) (file cwd : string) (e : error) :
  outcome (safeReadFile w file cwd) = Throw e ->
  swallowed e = false /\
  fs_isDirectory w (path_join w cwd file) = false /\
  fs_readFile w (path_join w cwd file) = inl e.
Proof.
  destruct (fs_exists w (path_join w cwd file)) eqn:Hex.
  2:{ rewrite safeReadFile_absent by exact Hex. discriminate. }
  destruct (fs_isDirectory w (path_join w cwd file)) eqn:Hdir.
  - rewrite safeReadFile_directory by assumption.
    destruct (outcome (readRuleDirectory w file cwd (path_join w cwd file)));
      discriminate.
  - destruct (fs_readFile w (path_join w cwd file)) as [e' | c] eqn:Hrd.
    + rewrite (safeReadFile_read_error w _ _ e') by assumption.
      destruct (swallowed e') eqn:Hs; [discriminate |].
      intros [= <-]. auto.
    + rewrite (safeReadFile_regular w _ _ c) by assumption. discriminate.
Qed.

Lemma loadRuleFilesFrom_outcomes (w : World) (files : list string)
    (cwd acc : string) :
  (exists s, outcome (loadRuleFilesFrom w files cwd acc) = Ret s) \/
  (exists e file,
     outcome (loadRuleFilesFrom w files cwd acc) = Throw e /\
     In file files /\
     outcome (safeReadFile w file cwd) = Throw e).
Proof.
  revert acc. induction files as [| f files IH]; intros acc; simpl.
  - left. eauto.
  - destruct (RuleFileShape.safeReadFile_returns_or_throws w f cwd)
      as [(s & Hs) | (e & He & _)].
    + rewrite (outcome_bind_ret _ _ _ Hs).
      assert (Hnext : forall acc',
                (exists s', outcome (loadRuleFilesFrom w files cwd acc') = Ret s') \/
                (exists e file,
                   outcome (loadRuleFilesFrom w files cwd acc') = Throw e /\
                   (f = file \/ In file files) /\
                   outcome (safeReadFile w file cwd) = Throw e)).
      { intros acc'. destruct (IH acc') as [Hr | (e & file & Ho & Hin & Hf)];
          [now left | right]. exists e, file. auto. }
      destruct (str_truthy s); apply Hnext.
    + right. exists e, f. split; [apply outcome_bind_throw, He | auto].
Qed.

(** X6.  [addCustomInstructions] returns the empty string or the banner
    followed by a non-empty body, never the banner alone; when it throws,
    it throws the error met when reading a rule file, the one of the
    mode or one of the three generic ones, which is then not a directory
    and whose read fails with a code that is neither ENOENT nor
    EISDIR. *)
Theorem document_is_empty_or_bannered :
  forall (w : World) (modeCustomInstructions globalCustomInstructions : value)
         (cwd mode : string) (options : Options),
    (exists s,
       outcome (addCustomInstructions w modeCustomInstructions
                  globalCustomInstructions cwd mode options) = Ret s /\
       (s = "" \/ exists body, body <> "" /\ s = banner ++ body)) \/
    (exists e file,
       outcome (addCustomInstructions w modeCustomInstructions
                  globalCustomInstructions cwd mode options) = Throw e /\
       ((mode <> "" /\ file = modeRuleFile mode) \/ In file ruleFiles) /\
       swallowed e = false /\
       fs_isDirectory w (path_join w cwd file) = false /\
       fs_readFile w (path_join w cwd file) = inl e).
Proof.
  intros w m g cwd mode options.
  assert (Hmode : (exists s,
                     outcome (if str_truthy mode
                              then safeReadFile w (modeRuleFile mode) cwd
                              else ret "") = Ret s) \/
                  (exists e,
                     outcome (if str_truthy mode
                              then safeReadFile w (modeRuleFile mode) cwd
                              else ret "") = Throw e /\
                     mode <> "" /\
                     outcome (safeReadFile w (modeRuleFile mode) cwd) = Throw e)).
  { destruct mode as [| c mode'] eqn:Hm; [left; eexists; reflexivity |].
    cbn [str_truthy].
    destruct (RuleFileShape.safeReadFile_returns_or_throws w
                (modeRuleFile (String c mode')) cwd)
      as [(s & Hs) | (e & He & _)]; [eauto |].
    right. exists e. repeat split; [exact He | discriminate | exact He]. }
  destruct Hmode as [(mrc & Hmrc) | (e & He & Hne & Hsafe)].
  2:{ right. exists e, (modeRuleFile mode).
      split; [unfold addCustomInstructions; apply outcome_bind_throw, He |].
      split; [left; auto |].
      now apply safeReadFile_throw_origin. }
  destruct (loadRuleFilesFrom_outcomes w ruleFiles cwd "")
    as [(grc & Hgrc) | (e & file & He & Hin & Hsafe)].
  2:{ right. exists e, file.
      split.
      { unfold addCustomInstructions.
        rewrite (outcome_bind_ret _ _ _ Hmrc); cbv beta zeta.
        apply outcome_bind_throw, He. }
      split; [right; exact Hin |].
      now apply safeReadFile_throw_origin. }
  left.
  assert (Hdoc : exists joined,
            outcome (addCustomInstructions w m g cwd mode options)
            = Ret (if str_truthy joined then banner ++ joined else "")).
  { run_reads Hmrc Hgrc. eexists. reflexivity. }
  destruct Hdoc as (joined & ->).
  eexists. split; [reflexivity |].
  destruct joined as [| c r]; simpl; [now left |].
  right. exists (String c r). split; [discriminate | reflexivity].
Qed.

(** X7.  When the rule file of the mode cannot be read, the call fails
    with that error before anything else is looked at: its events are
    those of that one read, the generic rule files are not touched, and
    neither the instructions nor the options matter. *)
Theorem mode_rule_failure_is_fatal :
  forall (w : World) (modeCustomInstructions globalCustomInstructions : value)
         (cwd mode : string) (options : Options) (e : error),
    mode <> "" ->
    outcome (safeReadFile w (modeRuleFile mode) cwd) = Throw e ->
    addCustomInstructions w modeCustomInstructions globalCustomInstructions
      cwd mode options
    = (trace (safeReadFile w (modeRuleFile mode) cwd), Throw e).
Proof.
  intros w m g cwd mode options e Hmode He.
  unfold addCustomInstructions.
  rewrite (str_truthy_true mode Hmode).
  destruct (safeReadFile w (modeRuleFile mode) cwd) as [t o].
  simpl in He. subst o. reflexivity.
Qed.

Lemma mode_rule_failure_is_fatal_witness :
  addCustomInstructions locked_mode_world (VStr "Be brief.") (VStr "Be kind.")
    "/ws" "code" (mkOptions (Some "fr") (Some "# .rooignore"))
  = ([EvExists "/ws/.clinerules-code"; EvIsDirectory "/ws/.clinerules-code";
      EvReadFile "/ws/.clinerules-code"],
     Throw (errno "EACCES")).
Proof.
  apply (mode_rule_failure_is_fatal locked_mode_world (VStr "Be brief.")
           (VStr "Be kind.") "/ws" "code"
           (mkOptions (Some "fr") (Some "# .rooignore")) (errno "EACCES")).
  - discriminate.
  - reflexivity.
Defined.

(** X8.  White space around the global and the mode instructions changes
    nothing: the call behaves on the instructions as on their trimmed
    texts; and an argument that is not a string, whatever else it is
    ([undefined], [null], a boolean, a number, an array, an object),
    counts as the empty string, for either argument and whatever the
    other one is. *)
Theorem instructions_are_trimmed :
  forall (w : World) (cwd mode : string) (options : Options),
    (forall m g : string,
       addCustomInstructions w (VStr m) (VStr g) cwd mode options
       = addCustomInstructions w (VStr (trim m)) (VStr (trim g)) cwd mode options) /\
    (forall mv gv : value,
       (forall s, mv <> VStr s) ->
       addCustomInstructions w mv gv cwd mode options
       = addCustomInstructions w (VStr "") gv cwd mode options) /\
    (forall mv gv : value,
       (forall s, gv <> VStr s) ->
       addCustomInstructions w mv gv cwd mode options
       = addCustomInstructions w mv (VStr "") cwd mode options) /\
    addCustomInstructions w VUndefined VNull cwd mode options
    = addCustomInstructions w (VStr "") (VStr "") cwd mode options.
Proof.
  intros w cwd mode options.
  assert (Hnot : forall v, (forall s, v <> VStr s) ->
                           trimmed_text v = trimmed_text (VStr "")).
  { intros v Hv. destruct v; try reflexivity. exfalso. now apply (Hv s). }
  split; [| split; [| split]].
  - intros m g. unfold addCustomInstructions, trimmed_text.
    rewrite !TrimFacts.trim_idempotent. reflexivity.
  - intros mv gv Hmv. unfold addCustomInstructions.
    rewrite (Hnot mv Hmv). reflexivity.
  - intros mv gv Hgv. unfold addCustomInstructions.
    rewrite (Hnot gv Hgv). reflexivity.
  - reflexivity.
Qed.

Lemma instructions_are_trimmed_witness :
  addCustomInstructions Cases.rules_world (VNum 3) (VStr "Be kind.") "/ws" "code"
    no_options
  = addCustomInstructions Cases.rules_world (VStr "") (VStr "Be kind.") "/ws" "code"
      no_options /\
  addCustomInstructions Cases.rules_world (VStr "Be brief.")
    (VObj [("text", VStr "Be kind.")]) "/ws" "code" no_options
  = addCustomInstructions Cases.rules_world (VStr "Be brief.") (VStr "") "/ws" "code"
      no_options.
Proof.
  split.
  - apply (proj1 (proj2 (instructions_are_trimmed Cases.rules_world "/ws" "code"
                           no_options))).
    intros s. discriminate.
  - apply (proj1 (proj2 (proj2 (instructions_are_trimmed Cases.rules_world "/ws"
                                  "code" no_options)))).
    intros s. discriminate.
Defined.

End DocumentShape.

(* ===================================================================== *)
(** * Further properties of the in-process resolver *)
(* ===================================================================== *)

Module ResolverShape.

Import JS Sys Spec Shape InProcess Exports MonadFacts InProcessFacts.

(** X9.  [getESLintConfigFromPackageJson] reads the file once and never
    throws: it returns [null] when the file cannot be read, when its text
    does not parse, when it parses to [null] and when the [eslintConfig]
    section is missing or falsy, and the section itself otherwise. *)
Theorem package_json_section :
  forall (w : World) (p : string),
    exists v,
      getESLintConfigFromPackageJson w p = ([EvReadFile p], Ret v) /\
      null_or_truthy v /\
      (forall content pkg,
         fs_readFile w p = inr content ->
         json_parse w content = Some pkg ->
         v = or_else (opt_prop pkg "eslintConfig") VNull) /\
      ((forall content, fs_readFile w p = inr content ->
                        json_parse w content = None) ->
       v = VNull).
Proof.
  intros w p.
  unfold getESLintConfigFromPackageJson, readFileSync, JSON_parse, null_or_truthy.
  destruct (fs_readFile w p) as [e | content] eqn:Hrd; simpl.
  { exists VNull. repeat split; auto; intros; discriminate. }
  destruct (json_parse w content) as [pkg |] eqn:Hjs; simpl.
  2:{ exists VNull. repeat split; auto.
      intros c pkg [= <-] Hpkg. congruence. }
  assert (Hcase : forall v,
            v = or_else (opt_prop pkg "eslintConfig") VNull ->
            (v = VNull \/ truthy v = true) /\
            (forall content0 pkg0,
               inr content = inr content0 :> error + string ->
               json_parse w content0 = Some pkg0 ->
               v = or_else (opt_prop pkg0 "eslintConfig") VNull) /\
            ((forall content0, inr content = inr content0 :> error + string ->
                               json_parse w content0 = None) -> v = VNull)).
  { intros v ->. repeat split.
    - unfold or_else.
      destruct (truthy (opt_prop pkg "eslintConfig")) eqn:Ht; auto.
    - intros c pkg0 [= <-] Hpkg0. congruence.
    - intros Hnone. specialize (Hnone content eq_refl). congruence. }
  destruct pkg; simpl;
    try (exists VNull; split; [reflexivity | apply Hcase; reflexivity]).
  exists (or_else (lookup "eslintConfig" props) VNull).
  split; [| apply Hcase; reflexivity].
  unfold or_else.
  destruct (truthy (lookup "eslintConfig" props)); reflexivity.
Qed.

Lemma package_json_section_witness :
  getESLintConfigFromPackageJson Cases.package_only_world "/ws/package.json"
  = ([EvReadFile "/ws/package.json"], Ret (VObj [("rules", Cases.rules_semi)])).
Proof.
  destruct (package_json_section Cases.package_only_world "/ws/package.json")
    as (v & Hrun & _ & Hv & _).
  rewrite Hrun, (Hv _ _ eq_refl eq_refl). reflexivity.
Defined.

Section WithWorld.

Variable w : World.

Lemma scanConfigPaths_touches (l1 l2 : list string) (p : string) (r : value) :
  Forall (file_yields_nothing w) l1 ->
  file_yields w p r ->
  forall ev, In ev (trace (scanConfigPaths w (l1 ++ p :: l2))) ->
    exists q, In q (l1 ++ [p]) /\ (ev = EvExists q \/ ev = EvReadFile q).
Proof.
  intros Hall Hp.
  induction Hall as [| a l1 Ha Hall IH]; simpl.
  - destruct (parseESLintConfig_spec w p) as (c & Hc & Htr & Hy).
    destruct (proj1 (Hy r) Hp) as [Hr Ht].
    rewrite (trace_bind_ret _ _ c Hc), Hr, Ht. simpl.
    rewrite app_nil_r. intros ev Hev. exists p. auto.
  - destruct (parseESLintConfig_spec w a) as (c & Hc & Htr & Hy).
    rewrite (trace_bind_ret _ _ c Hc).
    destruct (truthy (opt_prop c "rules")) eqn:Ht.
    { exfalso. apply (Ha (opt_prop c "rules")). apply Hy. auto. }
    intros ev Hev. apply in_app_or in Hev as [Hev | Hev].
    + exists a. auto.
    + destruct (IH ev Hev) as (q & Hq & Hcase). exists q. auto.
Qed.

End WithWorld.

(** X10.  The fallback scan stops at the first candidate that yields
    rules: every access to the file system during the resolution is an
    existence test or a read of a candidate up to that one, and no later
    candidate is touched. *)
Theorem scan_stops_at_first_match :
  forall (w : World) (ws : string) (l1 l2 : list string) (p : string) (r : value),
    workspace w = Some ws ->
    truthy (probe_rules w ws) = false ->
    getESLintConfigPaths w ws = (l1 ++ p :: l2)%list ->
    Forall (file_yields_nothing w) l1 ->
    file_yields w p r ->
    forall ev,
      In ev (trace (getWorkspaceESLintRules w)) ->
      is_fs_event ev = true ->
      exists q, In q (l1 ++ [p]) /\ (ev = EvExists q \/ ev = EvReadFile q).
Proof.
  intros w ws l1 l2 p r Hws Hprobe Hpaths Hall Hp ev Hev Hfs.
  unfold workspace in Hws. unfold getWorkspaceESLintRules in Hev.
  destruct (workspacePath_of (vscode_workspaceFolders w)) as [q |]; [| discriminate].
  destruct (str_truthy q); [| discriminate].
  injection Hws as ->.
  rewrite (trace_bind_ret _ _ _ (ScanFacts.getFullESLintConfig_outcome w ws)) in Hev.
  rewrite <- ScanFacts.probe_rules_eq, Hprobe, Hpaths in Hev.
  apply in_app_or in Hev as [Hev | Hev].
  - exfalso. unfold getFullESLintConfig in Hev.
    destruct (eslint_calculateConfigForFile w ws "dummy.ts"); simpl in Hev;
      repeat (destruct Hev as [<- | Hev]; [discriminate |]); contradiction.
  - eapply scanConfigPaths_touches; eauto.
Qed.

Lemma scan_stops_at_first_match_witness :
  ~ In (EvExists "/ws/package.json")
       (trace (getWorkspaceESLintRules Cases.fallback_world)).
Proof.
  intros Hin.
  assert (Hnone : Forall (file_yields_nothing Cases.fallback_world)
                    ["/ws/.eslintrc"; "/ws/.eslintrc.js"]).
  { constructor; [| constructor; [| constructor]];
      apply (ScanFacts.file_yields_nothing_of_run _ _ VNull); reflexivity. }
  destruct (scan_stops_at_first_match Cases.fallback_world "/ws"
              ["/ws/.eslintrc"; "/ws/.eslintrc.js"]
              ["/ws/.eslintrc.yaml"; "/ws/.eslintrc.yml"; "/ws/package.json"]
              "/ws/.eslintrc.json" Cases.rules_semi
              eq_refl eq_refl eq_refl Hnone
              (ScanFacts.file_yields_of_run Cases.fallback_world "/ws/.eslintrc.json"
                 (VObj [("rules", Cases.rules_semi)]) eq_refl eq_refl)
              _ Hin eq_refl) as (q & Hq & Hcase).
  simpl in Hq.
  destruct Hq as [<- | [<- | [<- | []]]]; destruct Hcase; discriminate.
Defined.

Lemma in_process_null_or_truthy (w : World) :
  exists v,
    outcome (getWorkspaceESLintRules w) = Ret v /\ null_or_truthy v.
Proof.
  unfold null_or_truthy.
  destruct (workspace w) as [ws |] eqn:Hws.
  - rewrite (ScanFacts.resolve_in_workspace w ws Hws).
    destruct (truthy (probe_rules w ws)) eqn:Hp.
    + exists (probe_rules w ws). auto.
    + destruct (ScanFacts.scanConfigPaths_spec w (getESLintConfigPaths w ws))
        as (v & Hv & [[Hn _] | [Ht _]]); exists v; auto.
  - rewrite (ScanFacts.resolve_without_workspace w Hws).
    exists VNull. auto.
Qed.

Lemma in_process_exhausted (w : World) :
  exhausted w -> outcome (getWorkspaceESLintRules w) = Ret VNull.
Proof.
  unfold exhausted.
  destruct (workspace w) as [ws |] eqn:Hws.
  - intros [Hp Hall].
    rewrite (ScanFacts.resolve_in_workspace w ws Hws), Hp.
    now apply ScanFacts.scanConfigPaths_none.
  - intros _. now rewrite (ScanFacts.resolve_without_workspace w Hws).
Qed.

Lemma sub_process_null_or_truthy (w : World) (d : string) (v : value) :
  outcome (SubProcess.getWorkspaceESLintRules w d) = Ret v -> null_or_truthy v.
Proof.
  unfold SubProcess.getWorkspaceESLintRules, SubProcess.getConfigPath, null_or_truthy.
  set (ws := utils_getWorkspacePath w d).
  destruct (SubProcessFacts.firstExisting_spec w (SubProcess.getESLintConfigPaths w ws))
    as [_ [[Ho _] | (p & Ho & _)]];
    rewrite (outcome_bind_ret _ _ _ Ho); simpl.
  - intros [= <-]. auto.
  - destruct (str_truthy p); simpl; [| intros [= <-]; auto].
    destruct (SubProcessFacts.getFullESLintConfig_cases w ws p)
      as [_ [(c & Hc) | (Hc & _)]].
    + rewrite (outcome_bind_ret _ _ _ Hc).
      destruct (truthy c) eqn:Ht; simpl; intros [= <-]; auto.
    + rewrite (outcome_bind_pending _ _ Hc). discriminate.
Qed.

(** X11.  What the resolvers return can be tested with [if (!rules)]:
    the in-process resolver returns [null] or a truthy value, and so does
    the sub-process resolver whenever it returns; neither returns
    [undefined], [false], 0 or the empty string. *)
Theorem resolvers_return_null_or_truthy :
  forall (w : World),
    (exists v,
       outcome (getWorkspaceESLintRules w) = Ret v /\ null_or_truthy v) /\
    (forall d,
       match outcome (SubProcess.getWorkspaceESLintRules w d) with
       | Ret v => null_or_truthy v
       | Throw _ => False
       | Pending => True
       end).
Proof.
  intros w. split; [apply in_process_null_or_truthy |].
  intros d.
  pose proof (sub_process_null_or_truthy w d) as Hv.
  destruct (SubProcessFacts.getWorkspaceESLintRules_cases w d)
    as [(v & Ho) | (Ho & _)]; rewrite Ho in *; auto.
Qed.

(** X12.  [getESLintRules] never throws.  It returns the empty string
    when the resolver finds nothing and when what it finds has no
    values ([Object.values] is empty: an empty rule mapping, a number, a
    boolean); otherwise it returns its template around the JSON text of
    the rules, so the test [rules &&] never decides by itself. *)
Theorem getESLintRules_text :
  forall (w : World) (stringify : value -> string),
    exists rules,
      outcome (getWorkspaceESLintRules w) = Ret rules /\
      outcome (getESLintRules w stringify)
      = Ret (if (0 <? Object_values_length rules)%nat
             then eslint_rules_text (stringify rules)
             else "") /\
      (exhausted w -> outcome (getESLintRules w stringify) = Ret "").
Proof.
  intros w stringify.
  destruct (in_process_null_or_truthy w) as (rules & Hr & Hshape).
  exists rules. split; [exact Hr |].
  assert (Hdoc : outcome (getESLintRules w stringify)
                 = Ret (if (0 <? Object_values_length rules)%nat
                        then eslint_rules_text (stringify rules)
                        else "")).
  { unfold getESLintRules, getFormattedESLintRules.
    rewrite (outcome_bind_ret _ _ _ Hr).
    destruct Hshape as [-> | Ht]; [reflexivity |].
    rewrite Ht. simpl.
    destruct (0 <? Object_values_length rules)%nat; reflexivity. }
  split; [exact Hdoc |].
  intros Hex. rewrite Hdoc.
  rewrite (in_process_exhausted w Hex) in Hr. injection Hr as <-.
  reflexivity.
Qed.

Lemma getESLintRules_text_witness :
  outcome (getESLintRules Cases.bare_world stringify_sample) = Ret "".
Proof.
  destruct (getESLintRules_text Cases.bare_world stringify_sample)
    as (rules & _ & _ & Hex).
  apply Hex. exact I.
Defined.

(** X13.  An empty rule mapping wins like any other: when the probe
    computes one, or when the probe yields nothing and the first
    candidate file that yields holds one, the resolver returns it, and
    [getESLintRules] returns the empty string whatever rules a later
    candidate holds. *)
Theorem empty_mapping_silences_later_rules :
  forall (w : World) (stringify : value -> string) (ws : string),
    workspace w = Some ws ->
    ((exists config,
        eslint_calculateConfigForFile w ws "dummy.ts" = inr config /\
        prop config "rules" = VObj []) \/
     (truthy (probe_rules w ws) = false /\
      exists l1 p l2,
        getESLintConfigPaths w ws = (l1 ++ p :: l2)%list /\
        Forall (file_yields_nothing w) l1 /\
        file_yields w p (VObj []))) ->
    outcome (getWorkspaceESLintRules w) = Ret (VObj []) /\
    outcome (getESLintRules w stringify) = Ret "".
Proof.
  intros w stringify ws Hws Hcase.
  assert (Hr : outcome (getWorkspaceESLintRules w) = Ret (VObj [])).
  { destruct Hcase as [(config & Hc & Hrules) | (Hp & l1 & p & l2 & Hpaths & Hall & Hy)].
    - now rewrite (ScanFacts.resolve_probe_first w ws config (VObj []) Hws Hc Hrules eq_refl).
    - rewrite (ScanFacts.resolve_in_workspace w ws Hws), Hp, Hpaths.
      now apply ScanFacts.scanConfigPaths_first. }
  split; [exact Hr |].
  unfold getESLintRules, getFormattedESLintRules.
  now rewrite (outcome_bind_ret _ _ _ Hr).
Qed.

Lemma empty_mapping_silences_later_rules_witness :
  outcome (getWorkspaceESLintRules Cases.empty_first_world) = Ret (VObj []) /\
  outcome (getESLintRules Cases.empty_first_world stringify_sample) = Ret "".
Proof.
  apply (empty_mapping_silences_later_rules Cases.empty_first_world
           stringify_sample "/ws" eq_refl).
  right. split; [reflexivity |].
  exists [], "/ws/.eslintrc",
    ["/ws/.eslintrc.js"; "/ws/.eslintrc.json"; "/ws/.eslintrc.yaml";
     "/ws/.eslintrc.yml"; "/ws/package.json"].
  split; [reflexivity |]. split; [constructor |].
  apply (ScanFacts.file_yields_of_run Cases.empty_first_world "/ws/.eslintrc"
           (VObj [("rules", VObj [])])); reflexivity.
Defined.

End ResolverShape.

(* ===================================================================== *)
(** * Further properties of the sub-process resolver *)
(* ===================================================================== *)

Module ChildProcessShape.

Import JS Sys Spec Shape SubProcess Exports MonadFacts RunCommandFacts.

Lemma feed_drop_stderr (evs : list ChildEvent) (output : string) :
  outcome (feed evs output) = outcome (feed (drop_stderr evs) output).
Proof.
  revert output.
  induction evs as [| ev evs IH]; intros output; [reflexivity |].
  destruct ev as [chunk | chunk | code | err]; simpl.
  - apply IH.
  - rewrite <- IH. destruct (feed evs output); reflexivity.
  - reflexivity.
  - reflexivity.
Qed.

(** X14.  What the child writes to standard error never decides: two
    runs that differ in their standard error only make [runCommand] end
    in the same way, with the same output or the same rejection. *)
Theorem stderr_never_decides :
  forall (w w' : World) (command command' : string) (options options' : list string)
         (projectFolder projectFolder' : string),
    drop_stderr (child_spawn w command options projectFolder)
    = drop_stderr (child_spawn w' command' options' projectFolder') ->
    outcome (runCommand w command options projectFolder)
    = outcome (runCommand w' command' options' projectFolder').
Proof.
  intros w w' c c' o o' f f' Heq.
  rewrite !runCommand_outcome.
  rewrite (feed_drop_stderr (child_spawn w c o f)), Heq.
  symmetry. apply feed_drop_stderr.
Qed.

Lemma stderr_never_decides_witness :
  outcome (runCommand Cases.exit1_world "npx"
             ["eslint"; "--print-config"; "/ws/.eslintrc"] "/ws")
  = outcome (runCommand quiet_world "npx"
               ["eslint"; "--print-config"; "/ws/.eslintrc"] "/ws").
Proof.
  apply stderr_never_decides. reflexivity.
Defined.

Lemma feed_unsettled (evs : list ChildEvent) (output : string) :
  settles evs = false -> outcome (feed evs output) = Pending.
Proof.
  revert output.
  induction evs as [| ev evs IH]; intros output; simpl; [reflexivity |].
  destruct ev as [chunk | chunk | code | err]; simpl; intros H;
    try discriminate.
  - apply IH, H.
  - specialize (IH output H). destruct (feed evs output). exact IH.
Qed.

(** X15.  [runCommand] has no time limit: its promise stays pending
    exactly when the child emits neither a close nor an error event. *)
Theorem runCommand_pending_iff :
  forall (w : World) (command : string) (options : list string)
         (projectFolder : string),
    outcome (runCommand w command options projectFolder) = Pending <->
    settles (child_spawn w command options projectFolder) = false.
Proof.
  intros w c o f. rewrite runCommand_outcome. split.
  - intros Hp. destruct (settles (child_spawn w c o f)) eqn:Hs; [| reflexivity].
    exfalso. now apply (feed_settles _ "" Hs).
  - apply feed_unsettled.
Qed.

Section WithWorld.

Variable w : World.

Lemma firstExisting_at (l1 l2 : list string) (p : string) :
  Forall (fun q => fs_exists w q = false) l1 ->
  fs_exists w p = true ->
  firstExisting w (l1 ++ p :: l2) = (map EvExists (l1 ++ [p]), Ret (Some p)).
Proof.
  intros Hall Hp.
  induction Hall as [| q l1 Hq Hall IH]; simpl; unfold InProcess.existsSync; simpl.
  - rewrite Hp. reflexivity.
  - rewrite Hq. simpl. rewrite IH. reflexivity.
Qed.

Lemma firstExisting_none (l : list string) :
  Forall (fun q => fs_exists w q = false) l ->
  firstExisting w l = (map EvExists l, Ret None).
Proof.
  induction 1 as [| q l Hq Hall IH]; simpl; unfold InProcess.existsSync; simpl.
  - reflexivity.
  - rewrite Hq. simpl. rewrite IH. reflexivity.
Qed.

Lemma first_existing_split (l : list string) :
  (exists l1 p l2,
     l = (l1 ++ p :: l2)%list /\
     Forall (fun q => fs_exists w q = false) l1 /\ fs_exists w p = true) \/
  Forall (fun q => fs_exists w q = false) l.
Proof.
  induction l as [| q l IH]; [right; constructor |].
  destruct (fs_exists w q) eqn:Hq.
  - left. exists [], q, l. repeat split; [constructor | exact Hq].
  - destruct IH as [(l1 & p & l2 & -> & Hall & Hp) | Hall].
    + left. exists (q :: l1), p, l2. repeat split; [constructor |]; assumption.
    + right. constructor; assumption.
Qed.

(** The probe, run on a child that ends well. *)
Lemma getFullESLintConfig_success (ws f : string)
    (pre post : list ChildEvent) (fin : ChildEvent) :
  print_config w ws f = (pre ++ fin :: post)%list ->
  forallb is_data pre = true ->
  exit_ok fin \/ fin = Close None ->
  outcome (getFullESLintConfig w ws f)
  = Ret (match json_parse w (stdout_of pre) with
         | Some v => v
         | None => VNull
         end).
Proof.
  intros Hrun Hpre Hfin.
  assert (Hout : outcome (runCommand w "npx" ["eslint"; "--print-config"; f] ws)
                 = Ret (stdout_of pre)).
  { rewrite runCommand_outcome. unfold print_config in Hrun.
    rewrite Hrun, feed_data by assumption.
    destruct Hfin as [[-> | ->] | ->]; reflexivity. }
  unfold getFullESLintConfig, InProcess.JSON_parse.
  destruct (json_parse w (stdout_of pre)) as [v |] eqn:Hjs.
  - apply outcome_try_ret.
    rewrite (outcome_bind_ret _ _ _ Hout), Hjs. reflexivity.
  - rewrite (outcome_try_throw _ _ (plain_error "SyntaxError")); [reflexivity |].
    rewrite (outcome_bind_ret _ _ _ Hout), Hjs. reflexivity.
Qed.

Lemma getFullESLintConfig_pending (ws f : string) :
  settles (print_config w ws f) = false ->
  outcome (getFullESLintConfig w ws f) = Pending.
Proof.
  intros Hs. unfold getFullESLintConfig.
  apply outcome_try_pending, outcome_bind_pending.
  rewrite runCommand_outcome. now apply feed_unsettled.
Qed.

Lemma filter_none {A} (f : A -> bool) (l : list A) :
  forallb (fun x => negb (f x)) l = true -> filter f l = [].
Proof.
  induction l as [| x l IH]; simpl; [reflexivity |].
  intros H. apply andb_true_iff in H as [Hx Hl].
  apply negb_true_iff in Hx. rewrite Hx. now apply IH.
Qed.

Lemma getFullESLintConfig_spawns_once (ws f : string) :
  filter is_probe_event (trace (getFullESLintConfig w ws f))
  = [EvSpawn "npx" ["eslint"; "--print-config"; f] ws].
Proof.
  unfold getFullESLintConfig, runCommand, InProcess.JSON_parse,
    InProcess.console_error.
  pose proof (feed_console_only
                (child_spawn w "npx" ["eslint"; "--print-config"; f] ws) "") as Ht.
  apply (SubProcessFacts.forallb_weaken _ (fun e => negb (is_probe_event e))) in Ht.
  2:{ intros x Hx. apply andb_true_iff in Hx as [_ Hx]. exact Hx. }
  apply filter_none in Ht.
  destruct (feed _ "") as [t [s | e |]]; simpl in *.
  - destruct (json_parse w s); simpl;
      rewrite ?app_nil_r, ?filter_app, Ht; reflexivity.
  - rewrite filter_app, Ht. reflexivity.
  - rewrite Ht. reflexivity.
Qed.

End WithWorld.

(** X16.  As [runCommand] has no time limit, neither has the resolver:
    when one of the conventional configuration files exists and the
    child never ends, [getWorkspaceESLintRules] neither returns nor
    throws. *)
Theorem resolver_waits_for_the_child :
  forall (w : World) (d : string),
    Forall (fun p => p <> "") (getESLintConfigPaths w (utils_getWorkspacePath w d)) ->
    ~ no_config_file w (utils_getWorkspacePath w d) ->
    (forall f, settles (print_config w (utils_getWorkspacePath w d) f) = false) ->
    outcome (getWorkspaceESLintRules w d) = Pending.
Proof.
  intros w d Hnames Hsome Hhang.
  unfold getWorkspaceESLintRules, getConfigPath, no_config_file in *.
  set (ws := utils_getWorkspacePath w d) in *.
  destruct (first_existing_split w (getESLintConfigPaths w ws))
    as [(l1 & p & l2 & Hl & Hall & Hp) | Hnone]; [| contradiction].
  rewrite Hl, (firstExisting_at w l1 l2 p Hall Hp). simpl.
  assert (Hne : p <> "").
  { rewrite Forall_forall in Hnames. apply Hnames. rewrite Hl.
    apply in_or_app. right. now left. }
  rewrite (RuleFileFacts.str_truthy_true p Hne). simpl.
  pose proof (getFullESLintConfig_pending w ws p (Hhang p)) as Hpend.
  destruct (getFullESLintConfig w ws p) as [t o]. simpl in *. subst o.
  reflexivity.
Qed.

Lemma resolver_waits_for_the_child_witness :
  outcome (getWorkspaceESLintRules hanging_world "") = Pending.
Proof.
  apply resolver_waits_for_the_child.
  - repeat constructor; discriminate.
  - unfold no_config_file. simpl. intros H.
    inversion H as [| ? ? _ H1]; subst.
    inversion H1 as [| ? ? _ H2]; subst.
    inversion H2 as [| ? ? H3 _]; subst.
    discriminate.
  - intros f. reflexivity.
Defined.

(** X17.  [getConfigPath] returns the first of .eslintrc, .eslintrc.js,
    .eslintrc.json, .eslintrc.yaml and .eslintrc.yml that exists in the
    workspace, after testing the candidates before it and none after it;
    it returns [null], after testing all five, when none exists. *)
Theorem getConfigPath_first_existing :
  forall (w : World) (ws : string),
    getESLintConfigPaths w ws
    = map (path_join w ws)
        [".eslintrc"; ".eslintrc.js"; ".eslintrc.json"; ".eslintrc.yaml";
         ".eslintrc.yml"] /\
    ((exists l1 p l2,
        getESLintConfigPaths w ws = (l1 ++ p :: l2)%list /\
        Forall (fun q => fs_exists w q = false) l1 /\
        fs_exists w p = true /\
        getConfigPath w ws = (map EvExists (l1 ++ [p]), Ret (Some p))) \/
     (no_config_file w ws /\
      getConfigPath w ws = (map EvExists (getESLintConfigPaths w ws), Ret None))).
Proof.
  intros w ws. split; [reflexivity |].
  unfold getConfigPath, no_config_file.
  destruct (first_existing_split w (getESLintConfigPaths w ws))
    as [(l1 & p & l2 & Hl & Hall & Hp) | Hnone].
  - left. exists l1, p, l2. repeat split; try assumption.
    rewrite Hl. now apply firstExisting_at.
  - right. split; [exact Hnone |]. now apply firstExisting_none.
Qed.

(** X18.  When the first existing configuration file is [p] and the
    child run on it ends with exit code 0 or 1, or by a signal, the
    sub-process resolver returns what the printed text parses to, the
    whole configuration and not its rules, and [null] when the text does
    not parse or parses to a falsy value. *)
Theorem sub_process_result :
  forall (w : World) (d : string) (l1 l2 : list string) (p : string)
         (pre post : list ChildEvent) (fin : ChildEvent),
    getESLintConfigPaths w (utils_getWorkspacePath w d) = (l1 ++ p :: l2)%list ->
    Forall (fun q => fs_exists w q = false) l1 ->
    fs_exists w p = true ->
    p <> "" ->
    print_config w (utils_getWorkspacePath w d) p = (pre ++ fin :: post)%list ->
    forallb is_data pre = true ->
    exit_ok fin \/ fin = Close None ->
    outcome (getWorkspaceESLintRules w d)
    = Ret (match json_parse w (stdout_of pre) with
           | Some v => if truthy v then v else VNull
           | None => VNull
           end).
Proof.
  intros w d l1 l2 p pre post fin Hl Hall Hp Hne Hrun Hpre Hfin.
  unfold getWorkspaceESLintRules, getConfigPath.
  set (ws := utils_getWorkspacePath w d) in *.
  rewrite Hl, (firstExisting_at w l1 l2 p Hall Hp). simpl.
  rewrite (RuleFileFacts.str_truthy_true p Hne). simpl.
  pose proof (getFullESLintConfig_success w ws p pre post fin Hrun Hpre Hfin) as Hc.
  destruct (getFullESLintConfig w ws p) as [t o]. simpl in *. subst o.
  destruct (json_parse w (stdout_of pre)) as [v |]; [| reflexivity].
  destruct (truthy v); reflexivity.
Qed.

Lemma sub_process_result_witness :
  outcome (getWorkspaceESLintRules printing_world "") = Ret Cases.computed_config.
Proof.
  apply (sub_process_result printing_world ""
           ["/ws/.eslintrc"; "/ws/.eslintrc.js"; "/ws/.eslintrc.json";
            "/ws/.eslintrc.yaml"]
           [] "/ws/.eslintrc.yml"
           [StdoutData Cases.printed_config] [] (Close (Some 0%Z)));
    try reflexivity.
  - repeat constructor.
  - discriminate.
  - left. left. reflexivity.
Defined.

(** X19.  The sub-process resolver spawns at most one child: none when
    no conventional configuration file exists, and otherwise exactly
    [npx eslint --print-config p] in the workspace directory, for the
    first existing configuration file [p]. *)
Theorem probe_spawned_at_most_once :
  forall (w : World) (d : string),
    filter is_probe_event (trace (getWorkspaceESLintRules w d))
    = match outcome (getConfigPath w (utils_getWorkspacePath w d)) with
      | Ret (Some p) =>
          if str_truthy p
          then [EvSpawn "npx" ["eslint"; "--print-config"; p]
                  (utils_getWorkspacePath w d)]
          else []
      | _ => []
      end.
Proof.
  intros w d.
  unfold getWorkspaceESLintRules, getConfigPath.
  set (ws := utils_getWorkspacePath w d).
  destruct (SubProcessFacts.firstExisting_spec w (getESLintConfigPaths w ws)) as [Ht _].
  apply (SubProcessFacts.forallb_weaken _ (fun e => negb (is_probe_event e))) in Ht.
  2:{ intros [] Hx; try discriminate; reflexivity. }
  apply filter_none in Ht.
  destruct (firstExisting w (getESLintConfigPaths w ws)) as [t [[p |] | e |]];
    simpl in *; rewrite ?app_nil_r; try exact Ht.
  destruct (str_truthy p); simpl; [| rewrite app_nil_r; exact Ht].
  pose proof (getFullESLintConfig_spawns_once w ws p) as Hs.
  destruct (getFullESLintConfig w ws p) as [t' [v | e |]]; simpl in *;
    try (rewrite filter_app, Ht; exact Hs).
  destruct (truthy v); simpl; rewrite app_nil_r, filter_app, Ht; exact Hs.
Qed.

Lemma sub_process_probe_failure (w : World) (d : string) :
  print_config_fails w (utils_getWorkspacePath w d) ->
  outcome (getWorkspaceESLintRules w d) = Ret VNull.
Proof.
  intros Hfail.
  unfold getWorkspaceESLintRules, getConfigPath.
  set (ws := utils_getWorkspacePath w d) in *.
  destruct (SubProcessFacts.firstExisting_spec w (getESLintConfigPaths w ws))
    as [_ [[Ho _] | (p & Ho & _)]];
    rewrite (outcome_bind_ret _ _ _ Ho); [reflexivity |].
  destruct (str_truthy p); simpl; [| reflexivity].
  rewrite (outcome_bind_ret _ _ VNull); [reflexivity |].
  apply SubProcessFacts.getFullESLintConfig_failure, Hfail.
Qed.

(** X20.  [getLintRules] never throws.  It returns the empty string
    when no conventional configuration file exists and when the probe
    fails, and whenever the resolver returns a configuration it returns
    its template around the JSON text of that configuration. *)
Theorem getLintRules_text :
  forall (w : World) (stringify : value -> string),
    (forall e, outcome (getLintRules w stringify) <> Throw e) /\
    (no_config_file w (utils_getWorkspacePath w "") \/
     print_config_fails w (utils_getWorkspacePath w "") ->
     outcome (getLintRules w stringify) = Ret "") /\
    (forall config,
       outcome (getWorkspaceESLintRules w "") = Ret config ->
       config <> VNull ->
       outcome (getLintRules w stringify)
       = Ret (lint_rules_text (stringify config))).
Proof.
  intros w stringify. unfold getLintRules. repeat split.
  - intros e He.
    destruct (SubProcessFacts.getWorkspaceESLintRules_cases w "")
      as [(v & Hv) | (Hv & _)].
    + rewrite (outcome_bind_ret _ _ _ Hv) in He.
      destruct (negb (truthy v)); discriminate.
    + rewrite (outcome_bind_pending _ _ Hv) in He. discriminate.
  - intros Hcase.
    assert (Hnull : outcome (getWorkspaceESLintRules w "") = Ret VNull).
    { destruct Hcase as [Hnone | Hfail].
      - now apply SubProcessFacts.getWorkspaceESLintRules_no_file.
      - now apply sub_process_probe_failure. }
    now rewrite (outcome_bind_ret _ _ _ Hnull).
  - intros config Hc Hne.
    rewrite (outcome_bind_ret _ _ _ Hc).
    destruct (ResolverShape.sub_process_null_or_truthy w "" config Hc)
      as [-> | Ht]; [contradiction |].
    rewrite Ht. reflexivity.
Qed.

Lemma getLintRules_text_witness :
  outcome (getLintRules Cases.flat_config_world stringify_sample) = Ret "" /\
  outcome (getLintRules printing_world stringify_sample)
  = Ret (lint_rules_text Cases.printed_config).
Proof.
  split.
  - apply (proj1 (proj2 (getLintRules_text Cases.flat_config_world stringify_sample))).
    left. unfold no_config_file. simpl. repeat constructor.
  - apply (proj2 (proj2 (getLintRules_text printing_world stringify_sample))
             Cases.computed_config).
    + reflexivity.
    + discriminate.
Defined.

End ChildProcessShape.
